(** * todo-front: the task store (hook [useTodos]), its API client
      ([todosApi]) and the authentication gate ([AuthProvider])

    A shallow embedding of the TypeScript sources:
    - [types/todo.types.ts]  : [TodoStatus], [Todo], the two DTOs, [FilterType];
    - [api/todosApi.ts]      : the five endpoint functions and
                               [deleteMultipleTodos];
    - [hooks/useTodos.ts]    : the React state of the hook and its operations;
    - [context/AuthProvider.tsx] : the render gate, the handshake and the
                               refresh of the token;
    - [hooks/useAuth.ts], [components/AddTodoForm.tsx],
      [components/TodoItem.tsx] : the handlers and conditions that call the
                               hook; [truncateText] of the utilities.

    Asynchronous functions are computations in a state-and-exception monad
    over a [World]: the React state of the hook, the pending timers, the
    trace of every effect performed so far, and the state of the environment
    (the backend behind the REST API and the user answering
    [window.confirm]).  The environment is arbitrary: it is a parameter of
    every definition and theorem. *)

From Stdlib Require Import List ZArith NArith Bool String Ascii Lia Permutation.
Import ListNotations.

Set Implicit Arguments.

(* ================================================================== *)
(** ** JavaScript strings *)
(* ================================================================== *)

(** A JavaScript string is a sequence of UTF-16 code units. *)
Definition jsstring := list N.

(** ASCII literals of the source, as code units. *)
Definition lit (s : string) : jsstring :=
  map N_of_ascii (list_ascii_of_string s).

(** [WhiteSpace] and [LineTerminator] of ECMAScript, the code points that
    [String.prototype.trim] strips (all of them in the basic plane). *)
Definition isWhiteSpace (c : N) : bool :=
  ((c =? 0x0009) || (c =? 0x000A) || (c =? 0x000B) || (c =? 0x000C) ||
   (c =? 0x000D) || (c =? 0x0020) || (c =? 0x00A0) || (c =? 0x1680) ||
   ((0x2000 <=? c) && (c <=? 0x200A)) ||
   (c =? 0x2028) || (c =? 0x2029) || (c =? 0x202F) || (c =? 0x205F) ||
   (c =? 0x3000) || (c =? 0xFEFF))%N.

Fixpoint trimStart (s : jsstring) : jsstring :=
  match s with
  | [] => []
  | c :: r => if isWhiteSpace c then trimStart r else s
  end.

Definition trimEnd (s : jsstring) : jsstring := rev (trimStart (rev s)).

(** [s.trim()] *)
Definition trim (s : jsstring) : jsstring := trimEnd (trimStart s).

Definition isHighSurrogate (c : N) : bool :=
  ((0xD800 <=? c) && (c <=? 0xDBFF))%N.

Definition isLowSurrogate (c : N) : bool :=
  ((0xDC00 <=? c) && (c <=? 0xDFFF))%N.

(** No lone surrogate: every high surrogate is followed by a low one, and a
    low surrogate only comes after a high one. *)
Fixpoint isWellFormed (s : jsstring) : bool :=
  match s with
  | [] => true
  | c :: r =>
      if isHighSurrogate c then
        match r with
        | d :: r' => isLowSurrogate d && isWellFormed r'
        | [] => false
        end
      else if isLowSurrogate c then false
      else isWellFormed r
  end.

(** The message of the [URIError] that [encodeURIComponent] throws on a
    string with a lone surrogate; the words are the engine's (these are
    V8's). *)
Definition msgURIMalformed : jsstring := lit "URI malformed".

(** [`${n}`] for an array length: its decimal digits. *)
Fixpoint digits (u : Decimal.uint) : jsstring :=
  match u with
  | Decimal.Nil => []
  | Decimal.D0 r => 48%N :: digits r
  | Decimal.D1 r => 49%N :: digits r
  | Decimal.D2 r => 50%N :: digits r
  | Decimal.D3 r => 51%N :: digits r
  | Decimal.D4 r => 52%N :: digits r
  | Decimal.D5 r => 53%N :: digits r
  | Decimal.D6 r => 54%N :: digits r
  | Decimal.D7 r => 55%N :: digits r
  | Decimal.D8 r => 56%N :: digits r
  | Decimal.D9 r => 57%N :: digits r
  end.

Definition numberToString (n : nat) : jsstring := digits (Nat.to_uint n).

(* ================================================================== *)
(** ** types/todo.types.ts *)
(* ================================================================== *)

Inductive TodoStatus : Type := PENDING | IN_PROGRESS | COMPLETED | CANCELLED.

(** [a === b] on two statuses. *)
Definition status_eqb (a b : TodoStatus) : bool :=
  match a, b with
  | PENDING, PENDING | IN_PROGRESS, IN_PROGRESS
  | COMPLETED, COMPLETED | CANCELLED, CANCELLED => true
  | _, _ => false
  end.

Module Todo.
Record t : Type := mk {
  id : Z;
  title : jsstring;
  description : jsstring;
  status : TodoStatus;
  createdAt : option jsstring;
  updatedAt : option jsstring
}.
End Todo.

Module CreateTodoDto.
Record t : Type := mk { title : jsstring; description : jsstring }.
End CreateTodoDto.

Module UpdateTodoDto.
Record t : Type := mk {
  title : jsstring;
  description : jsstring;
  status : TodoStatus
}.
End UpdateTodoDto.

Inductive FilterType : Type := all | active | completed | cancelled.

(* ================================================================== *)
(** ** Effects: the world, and the monad of asynchronous functions *)
(* ================================================================== *)

(** What a [catch] clause can receive: an [Error] instance with its
    message, or any other thrown value. *)
Inductive Thrown : Type :=
| ErrorInstance (message : jsstring)
| NotAnError.

(** How an asynchronous function settles: resolved or rejected. *)
Inductive Result (A : Type) : Type :=
| Ok (a : A)
| Rejected (e : Thrown).
Arguments Rejected {A} e.

(** A call of the API client that reaches the network. *)
Inductive Request : Type :=
| ReqFetchAll
| ReqSearch (query : jsstring)
| ReqCreate (dto : CreateTodoDto.t)
| ReqUpdate (id : Z) (dto : UpdateTodoDto.t)
| ReqDelete (id : Z).

(** The only callback the hook ever hands to [setTimeout]:
    [() => setError('')]. *)
Inductive Callback : Type := ClearError.

Inductive Event : Type :=
| EvRequest (r : Request)
| EvConfirm (message : jsstring)
| EvSetTodos (l : list Todo.t)
| EvSetLoading (b : bool)
| EvSetError (s : jsstring)
| EvSetInitialLoading (b : bool)
| EvSetTimeout (cb : Callback) (ms : Z).

(** The four [useState] cells of [useTodos]. *)
Module Store.
Record t : Type := mk {
  todos : list Todo.t;
  loading : bool;
  error : jsstring;
  initialLoading : bool
}.
End Store.

(** [useState] initial values. *)
Definition initialStore : Store.t :=
  {| Store.todos := []; Store.loading := false; Store.error := [];
     Store.initialLoading := true |}.

(** The environment: what the backend answers to each endpoint function of
    [todosApi] and what the user answers to [window.confirm].  [B] is the
    environment's own state, so that answers may depend on the history. *)
Record Environment (B : Type) : Type := mkEnv {
  onFetchAll : B -> Result (list Todo.t) * B;
  onSearch : jsstring -> B -> Result (list Todo.t) * B;
  onCreate : CreateTodoDto.t -> B -> Result Todo.t * B;
  onUpdate : Z -> UpdateTodoDto.t -> B -> Result Todo.t * B;
  onDelete : Z -> B -> Result unit * B;
  onConfirm : jsstring -> B -> bool * B
}.

Record World (B : Type) : Type := mkWorld {
  store : Store.t;
  timers : list (Callback * Z);
  trace : list Event;
  backend : B
}.

Definition M (B A : Type) : Type := World B -> Result A * World B.

Section Monad.
Context {B : Type}.

Definition ret {A} (a : A) : M B A := fun w => (Ok a, w).

Definition bind {A C} (m : M B A) (k : A -> M B C) : M B C :=
  fun w =>
    match m w with
    | (Ok a, w') => k a w'
    | (Rejected e, w') => (Rejected e, w')
    end.

Definition throw {A} (e : Thrown) : M B A := fun w => (Rejected e, w).

(** [try { m } catch (error) { h error }] *)
Definition tryCatch {A} (m : M B A) (h : Thrown -> M B A) : M B A :=
  fun w =>
    match m w with
    | (Ok a, w') => (Ok a, w')
    | (Rejected e, w') => h e w'
    end.

(** [try { m } finally { f }]: [f] runs on both exits and the completion
    of [m] is kept unless [f] itself throws. *)
Definition tryFinally {A} (m : M B A) (f : M B unit) : M B A :=
  fun w =>
    let (r, w') := m w in
    match f w' with
    | (Ok _, w'') => (r, w'')
    | (Rejected e, w'') => (Rejected e, w'')
    end.

(** A call of an asynchronous function whose promise is dropped (no
    [await]): its effects take place, its completion is not observed. *)
Definition notAwaited {A} (m : M B A) : M B unit :=
  fun w => (Ok tt, snd (m w)).

Definition emit (e : Event) : M B unit :=
  fun w => (Ok tt, {| store := store w; timers := timers w;
                      trace := trace w ++ [e]; backend := backend w |}).

Definition modifyStore (f : Store.t -> Store.t) : M B unit :=
  fun w => (Ok tt, {| store := f (store w); timers := timers w;
                      trace := trace w; backend := backend w |}).

(** One exchange with the environment. *)
Definition ask {A} (h : B -> A * B) : M B A :=
  fun w =>
    let (a, b') := h (backend w) in
    (Ok a, {| store := store w; timers := timers w;
              trace := trace w; backend := b' |}).

(** An exchange whose answer settles a promise. *)
Definition await {A} (h : B -> Result A * B) : M B A :=
  fun w =>
    let (r, b') := h (backend w) in
    (r, {| store := store w; timers := timers w;
           trace := trace w; backend := b' |}).
End Monad.

Declare Scope js_scope.
Delimit Scope js_scope with js.
Notation "x <- m ;; k" := (bind m (fun x => k))
  (at level 61, m at next level, right associativity) : js_scope.
Notation "m ;; k" := (bind m (fun _ => k))
  (at level 61, right associativity) : js_scope.
Open Scope js_scope.

(* ================================================================== *)
(** ** React state setters, timers, [window.confirm] *)
(* ================================================================== *)

Section Primitives.
Context {B : Type}.

Definition setTodos (l : list Todo.t) : M B unit :=
  emit (EvSetTodos l) ;;
  modifyStore (fun s =>
    {| Store.todos := l; Store.loading := Store.loading s;
       Store.error := Store.error s;
       Store.initialLoading := Store.initialLoading s |}).

Definition setLoading (b : bool) : M B unit :=
  emit (EvSetLoading b) ;;
  modifyStore (fun s =>
    {| Store.todos := Store.todos s; Store.loading := b;
       Store.error := Store.error s;
       Store.initialLoading := Store.initialLoading s |}).

Definition setError (m : jsstring) : M B unit :=
  emit (EvSetError m) ;;
  modifyStore (fun s =>
    {| Store.todos := Store.todos s; Store.loading := Store.loading s;
       Store.error := m;
       Store.initialLoading := Store.initialLoading s |}).

Definition setInitialLoading (b : bool) : M B unit :=
  emit (EvSetInitialLoading b) ;;
  modifyStore (fun s =>
    {| Store.todos := Store.todos s; Store.loading := Store.loading s;
       Store.error := Store.error s; Store.initialLoading := b |}).

(** [setTimeout(cb, ms)]: the callback is queued, it does not run here. *)
Definition setTimeout (cb : Callback) (ms : Z) : M B unit :=
  emit (EvSetTimeout cb ms) ;;
  (fun w => (Ok tt, {| store := store w; timers := timers w ++ [(cb, ms)];
                       trace := trace w; backend := backend w |})).

Definition window_confirm (env : Environment B) (message : jsstring)
  : M B bool :=
  emit (EvConfirm message) ;; ask (onConfirm env message).
End Primitives.

(* ================================================================== *)
(** ** api/todosApi.ts *)
(* ================================================================== *)

(** Each endpoint function issues one HTTP request and then resolves with
    the parsed body or rejects ([!response.ok], a network failure, a body that
    does not parse): the exchange itself is the environment's. *)
Module todosApi.
Section Api.
Context {B : Type} (env : Environment B).

Definition fetchAllTodos : M B (list Todo.t) :=
  emit (EvRequest ReqFetchAll) ;; await (onFetchAll env).

(** [encodeURIComponent(query)] comes before [fetch]: on a query with a
    lone surrogate it throws, and no request is made.  On any other query
    the encoded text determines the query, which the request of the model
    carries as it is. *)
Definition searchTodos (query : jsstring) : M B (list Todo.t) :=
  if isWellFormed query then
    emit (EvRequest (ReqSearch query)) ;; await (onSearch env query)
  else throw (ErrorInstance msgURIMalformed).

Definition createTodo (todoData : CreateTodoDto.t) : M B Todo.t :=
  emit (EvRequest (ReqCreate todoData)) ;; await (onCreate env todoData).

Definition updateTodo (id : Z) (todoData : UpdateTodoDto.t) : M B Todo.t :=
  emit (EvRequest (ReqUpdate id todoData)) ;; await (onUpdate env id todoData).

Definition deleteTodo (id : Z) : M B unit :=
  emit (EvRequest (ReqDelete id)) ;; await (onDelete env id).

(** A started asynchronous call kept as a promise: it never throws at the
    place where it is started, its completion is the promise's value. *)
Definition promise {A} (m : M B A) : M B (Result A) :=
  fun w => let (r, w') := m w in (Ok r, w').

(** [ids.map(id => f(id))] where [f] is asynchronous: every call is
    started, in order, whatever the earlier ones answer.  The environment
    is asked in the order of the requests. *)
Fixpoint mapAsync {A} (f : Z -> M B A) (ids : list Z)
  : M B (list (Result A)) :=
  match ids with
  | [] => ret []
  | id :: rest =>
      p <- promise (f id) ;;
      ps <- mapAsync f rest ;;
      ret (p :: ps)
  end.

(** [await Promise.all(ps)]: all the values, or the first rejection. *)
Fixpoint Promise_all {A} (ps : list (Result A)) : M B (list A) :=
  match ps with
  | [] => ret []
  | Ok a :: rest => l <- Promise_all rest ;; ret (a :: l)
  | Rejected e :: _ => throw e
  end.

Definition deleteMultipleTodos (ids : list Z) : M B unit :=
  deletePromises <- mapAsync deleteTodo ids ;;
  Promise_all deletePromises ;;
  ret tt.
End Api.
End todosApi.

(* ================================================================== *)
(** ** hooks/useTodos.ts *)
(* ================================================================== *)

(** [s === ''] *)
Definition isEmpty (s : jsstring) : bool :=
  match s with [] => true | _ :: _ => false end.

(** ['Título y descripción son requeridos'] *)
Definition msgRequired : jsstring :=
  lit "T" ++ [0xED%N] ++ lit "tulo y descripci" ++ [0xF3%N] ++
  lit "n son requeridos".

(** [`¿Estás seguro de eliminar ${n} tareas completadas?`] *)
Definition msgConfirmCompleted (n : nat) : jsstring :=
  [0xBF%N] ++ lit "Est" ++ [0xE1%N] ++ lit "s seguro de eliminar " ++
  numberToString n ++ lit " tareas completadas?".

(** [error instanceof Error ? error.message : defaultMessage], the constant
    [errorMessage] of [handleApiError]. *)
Definition errorMessage (error : Thrown) (defaultMessage : jsstring)
  : jsstring :=
  match error with
  | ErrorInstance message => message
  | NotAnError => defaultMessage
  end.

(** ['¿Estás seguro de eliminar esta tarea?'] *)
Definition msgConfirmOne : jsstring :=
  [0xBF%N] ++ lit "Est" ++ [0xE1%N] ++ lit "s seguro de eliminar esta tarea?".

(** [console.log(x)].  The console is outside the world: nothing the hook or
    the view reads depends on it, so that writing to it changes nothing
    here. *)
Definition console_log {B A : Type} (x : A) : M B unit := ret tt.

(** What [getCounts] returns.  [activeCount] is computed by subtraction. *)
Module Counts.
Record t : Type := mk {
  completedCount : Z;
  cancelledCount : Z;
  activeCount : Z;
  totalCount : Z
}.
End Counts.

Section useTodos.
Context {B : Type} (env : Environment B).

(** [const [todos, setTodos] = useState<Todo[]>([])]: the value of the
    list in the render whose closures are being called. *)
Variable todos : list Todo.t.

Definition handleApiError (error : Thrown) (defaultMessage : jsstring)
  : M B unit :=
  setError (errorMessage error defaultMessage) ;;
  setTimeout ClearError 5000.

Definition fetchTodos : M B unit :=
  tryFinally
    (tryCatch
       (setInitialLoading true ;;
        data <- todosApi.fetchAllTodos env ;;
        setTodos data)
       (fun error =>
          handleApiError error (lit "Error al cargar las tareas") ;;
          setTodos []))
    (setInitialLoading false).

Definition searchTodos (query : jsstring) : M B unit :=
  if isEmpty (trim query) then
    notAwaited fetchTodos
  else
    tryFinally
      (tryCatch
         (setLoading true ;;
          data <- todosApi.searchTodos env query ;;
          setTodos data)
         (fun error =>
            handleApiError error (lit "Error al buscar tareas")))
      (setLoading false).

Definition addTodo (todoData : CreateTodoDto.t) : M B bool :=
  if isEmpty (trim (CreateTodoDto.title todoData))
     || isEmpty (trim (CreateTodoDto.description todoData))
  then
    setError msgRequired ;;
    setTimeout ClearError 3000 ;;
    ret false
  else
    tryFinally
      (tryCatch
         (setLoading true ;;
          newTodo <- todosApi.createTodo env
            {| CreateTodoDto.title := trim (CreateTodoDto.title todoData);
               CreateTodoDto.description :=
                 trim (CreateTodoDto.description todoData) |} ;;
          setTodos (todos ++ [newTodo]) ;;
          ret true)
         (fun error =>
            handleApiError error (lit "Error al crear la tarea") ;;
            ret false))
      (setLoading false).

Definition toggleTodo (id : Z) : M B unit :=
  match find (fun t => Todo.id t =? id)%Z todos with
  | None => ret tt
  | Some todo =>
      tryCatch
        (let newStatus :=
           if status_eqb (Todo.status todo) COMPLETED
           then PENDING else COMPLETED in
         updatedTodo <- todosApi.updateTodo env id
           {| UpdateTodoDto.title := Todo.title todo;
              UpdateTodoDto.description := Todo.description todo;
              UpdateTodoDto.status := newStatus |} ;;
         setTodos
           (map (fun t => if (Todo.id t =? id)%Z then updatedTodo else t)
                todos))
        (fun error =>
           handleApiError error (lit "Error al actualizar la tarea"))
  end.

Definition deleteAllCompleted : M B unit :=
  let completedTodos :=
    List.filter (fun todo => status_eqb (Todo.status todo) COMPLETED) todos in
  if (List.length completedTodos =? 0)%nat then ret tt
  else
    confirmed <- window_confirm env
                   (msgConfirmCompleted (List.length completedTodos)) ;;
    if negb confirmed then ret tt
    else
      tryFinally
        (tryCatch
           (setLoading true ;;
            let completedIds := map Todo.id completedTodos in
            todosApi.deleteMultipleTodos env completedIds ;;
            setTodos
              (List.filter
                 (fun todo => negb (status_eqb (Todo.status todo) COMPLETED))
                 todos))
           (fun error =>
              handleApiError error
                (lit "Error al eliminar tareas completadas")))
        (setLoading false).

Definition getFilteredTodos (filter : FilterType) : list Todo.t :=
  match filter with
  | active =>
      List.filter
        (fun todo => status_eqb (Todo.status todo) PENDING
                     || status_eqb (Todo.status todo) IN_PROGRESS)
        todos
  | completed =>
      List.filter (fun todo => status_eqb (Todo.status todo) COMPLETED) todos
  | cancelled =>
      List.filter (fun todo => status_eqb (Todo.status todo) CANCELLED) todos
  | all => todos
  end.

Definition changeStatus (id : Z) (newStatus : TodoStatus) : M B unit :=
  console_log newStatus ;;
  match find (fun t => Todo.id t =? id)%Z todos with
  | None => ret tt
  | Some todo =>
      tryCatch
        (updatedTodo <- todosApi.updateTodo env id
           {| UpdateTodoDto.title := Todo.title todo;
              UpdateTodoDto.description := Todo.description todo;
              UpdateTodoDto.status := newStatus |} ;;
         setTodos
           (map (fun t => if (Todo.id t =? id)%Z then updatedTodo else t)
                todos))
        (fun error =>
           handleApiError error (lit "Error al cambiar el estado"))
  end.

Definition deleteTodoById (id : Z) : M B unit :=
  confirmed <- window_confirm env msgConfirmOne ;;
  if negb confirmed then ret tt
  else
    tryCatch
      (todosApi.deleteTodo env id ;;
       setTodos
         (List.filter (fun todo => negb (Todo.id todo =? id)%Z) todos))
      (fun error =>
         handleApiError error (lit "Error al eliminar la tarea")).

Definition getCounts : Counts.t :=
  let completedCount :=
    Z.of_nat (List.length
      (List.filter (fun todo => status_eqb (Todo.status todo) COMPLETED)
                   todos)) in
  let cancelledCount :=
    Z.of_nat (List.length
      (List.filter (fun todo => status_eqb (Todo.status todo) CANCELLED)
                   todos)) in
  let activeCount :=
    (Z.of_nat (List.length todos) - completedCount - cancelledCount)%Z in
  {| Counts.completedCount := completedCount;
     Counts.cancelledCount := cancelledCount;
     Counts.activeCount := activeCount;
     Counts.totalCount := Z.of_nat (List.length todos) |}.
End useTodos.

(** [todo => todo.status === 'COMPLETED'] *)
Definition isCompleted (todo : Todo.t) : bool :=
  status_eqb (Todo.status todo) COMPLETED.

(** The events of one deletion request per id, in order. *)
Definition deleteEvents (ids : list Z) : list Event :=
  map (fun id => EvRequest (ReqDelete id)) ids.

(** The status [toggleTodo] asks for, case by case. *)
Definition toggledStatus (s : TodoStatus) : TodoStatus :=
  match s with
  | COMPLETED => PENDING
  | PENDING => COMPLETED
  | IN_PROGRESS => COMPLETED
  | CANCELLED => COMPLETED
  end.

(** A call of one of the hook's functions from the latest render: the
    closure holds the list that is in the store at that moment. *)
Definition fromRender {B A} (f : list Todo.t -> M B A) : M B A :=
  fun w => f (Store.todos (store w)) w.

(** The requests among the events of a trace. *)
Fixpoint requests (tr : list Event) : list Request :=
  match tr with
  | [] => []
  | EvRequest r :: rest => r :: requests rest
  | _ :: rest => requests rest
  end.

(* ================================================================== *)
(** ** context/AuthProvider.tsx *)
(* ================================================================== *)

Module Auth.
(** The three [useState] cells of the provider. *)
Record State : Type := mkState {
  initialized : bool;
  authenticated : bool;
  token : option jsstring
}.

(** [login] and [logout] of the context value call the identity client. *)
Inductive KeycloakCall : Type := KcLogin | KcLogout.

Record AuthContextType (U : Type) : Type := mkValue {
  ctx_initialized : bool;
  ctx_authenticated : bool;
  ctx_token : option jsstring;
  ctx_login : KeycloakCall;
  ctx_logout : KeycloakCall;
  ctx_user : option U
}.

(** What the component returns: a [<div><p>text</p></div>] that fills the
    viewport, or the context provider around the children. *)
Inductive Element (U C : Type) : Type :=
| BlockingMessage (text : jsstring)
| Provider (value : AuthContextType U) (children : C).
Arguments BlockingMessage {U C} text.

(** ['Inicializando autenticación…'] *)
Definition msgInitializing : jsstring :=
  lit "Inicializando autenticaci" ++ [0xF3%N] ++ lit "n" ++ [0x2026%N].

(** ['No autenticado. Redirigiendo al login…'] *)
Definition msgUnauthenticated : jsstring :=
  lit "No autenticado. Redirigiendo al login" ++ [0x2026%N].

Section Provider.
Context {U C : Type}.
(** [keycloak.tokenParsed] *)
Variable tokenParsed : option U.

Definition AuthProvider (st : State) (children : C) : Element U C :=
  let value :=
    {| ctx_initialized := initialized st;
       ctx_authenticated := authenticated st;
       ctx_token := token st;
       ctx_login := KcLogin;
       ctx_logout := KcLogout;
       ctx_user := tokenParsed |} in
  if negb (initialized st) then BlockingMessage msgInitializing
  else if negb (authenticated st) then BlockingMessage msgUnauthenticated
  else Provider value children.
End Provider.

(** [useState] initial values. *)
Definition initialState : State :=
  {| initialized := false; authenticated := false; token := None |}.

(** How [keycloak.init] settles: with the [auth] flag (and the client's
    token at that time), or with a rejection. *)
Inductive InitOutcome : Type :=
| InitResolved (auth : bool) (keycloakToken : option jsstring)
| InitRejected.

(** The [then] and [catch] callbacks of the mount effect. *)
Definition afterInit (isMounted : bool) (o : InitOutcome) (st : State)
  : State :=
  if negb isMounted then st
  else
    match o with
    | InitResolved auth keycloakToken =>
        {| initialized := true; authenticated := auth;
           token := keycloakToken |}
    | InitRejected =>
        {| initialized := true; authenticated := false;
           token := token st |}
    end.

(** The application content an element shows, if any. *)
Definition shownChildren {U C} (e : Element U C) : option C :=
  match e with
  | BlockingMessage _ => None
  | Provider _ children => Some children
  end.
End Auth.

(* ================================================================== *)
(** ** hooks/useAuth.ts and the refresh of the token *)
(* ================================================================== *)

Module AuthHook.
(** ['useAuth must be used within AuthProvider'] *)
Definition msgOutsideProvider : jsstring :=
  lit "useAuth must be used within AuthProvider".

(** [useContext(AuthContext)] below an element the provider rendered: the
    value of the provider, or the default [undefined] of [createContext]
    where there is no provider. *)
Definition useContext {U C : Type} (e : Auth.Element U C)
  : option (Auth.AuthContextType U) :=
  match e with
  | Auth.BlockingMessage _ => None
  | Auth.Provider value _ => Some value
  end.

(** [useAuth]: the context value, or a thrown [Error]. *)
Definition useAuth {U : Type} (ctx : option (Auth.AuthContextType U))
  : Result (Auth.AuthContextType U) :=
  match ctx with
  | None => Rejected (ErrorInstance msgOutsideProvider)
  | Some ctx => Ok ctx
  end.

(** How [keycloak.updateToken(60)] settles, with the client's token then. *)
Inductive RefreshOutcome : Type :=
| RefreshResolved (refreshed : bool) (keycloakToken : option jsstring)
| RefreshRejected.

(** One tick of the refresh interval: the new state of the provider and the
    calls made on the identity client. *)
Definition refresh (o : RefreshOutcome) (st : Auth.State)
  : Auth.State * list Auth.KeycloakCall :=
  match o with
  | RefreshResolved refreshed keycloakToken =>
      if refreshed
      then ({| Auth.initialized := Auth.initialized st;
               Auth.authenticated := Auth.authenticated st;
               Auth.token := keycloakToken |}, [])
      else (st, [])
  | RefreshRejected => (st, [Auth.KcLogin])
  end.
End AuthHook.

(* ================================================================== *)
(** ** components/AddTodoForm.tsx *)
(* ================================================================== *)

Module AddTodoForm.
(** The three [useState] cells of the form. *)
Record State : Type := mk {
  showForm : bool;
  title : jsstring;
  description : jsstring
}.

Definition initialState : State :=
  {| showForm := false; title := []; description := [] |}.

Section Handlers.
Context {B : Type}.
(** The [onAdd] prop. *)
Variable onAdd : CreateTodoDto.t -> M B bool.

(** [handleSubmit]: the state of the form once the handler is done. *)
Definition handleSubmit (st : State) : M B State :=
  success <- onAdd {| CreateTodoDto.title := title st;
                      CreateTodoDto.description := description st |} ;;
  if success
  then ret {| showForm := false; title := []; description := [] |}
  else ret st.
End Handlers.

Definition handleCancel (st : State) : State :=
  {| showForm := false; title := []; description := [] |}.

(** The [disabled] attribute of the submit button:
    [loading || !title.trim() || !description.trim()]. *)
Definition submitDisabled (loading : bool) (st : State) : bool :=
  loading || isEmpty (trim (title st)) || isEmpty (trim (description st)).
End AddTodoForm.

(* ================================================================== *)
(** ** components/TodoItem.tsx *)
(* ================================================================== *)

Module TodoItem.
(** The [title] of the toggle button. *)
Definition toggleTitle (todo : Todo.t) : jsstring :=
  let isCompleted := status_eqb (Todo.status todo) COMPLETED in
  if isCompleted then lit "Marcar como pendiente"
  else lit "Marcar como completada".

(** The status buttons the item shows, in the order of the markup; each
    calls [onChangeStatus(todo.id, s)] with its status [s]. *)
Definition statusButtons (todo : Todo.t) : list TodoStatus :=
  let isCompleted := status_eqb (Todo.status todo) COMPLETED in
  let isCancelled := status_eqb (Todo.status todo) CANCELLED in
  (if negb (status_eqb (Todo.status todo) PENDING) then [PENDING] else []) ++
  (if negb (status_eqb (Todo.status todo) IN_PROGRESS)
      && negb isCompleted && negb isCancelled
   then [IN_PROGRESS] else []) ++
  (if negb isCompleted && negb isCancelled then [COMPLETED] else []) ++
  (if negb isCancelled && negb isCompleted then [CANCELLED] else []).
End TodoItem.

(* ================================================================== *)
(** ** utils: [truncateText] *)
(* ================================================================== *)

(** [text.substring(0, n)] for an integer [n]: a negative [n] counts as 0
    and one beyond the length as the length. *)
Definition substring0 (text : jsstring) (n : Z) : jsstring :=
  firstn (Z.to_nat n) text.

(** [truncateText], for an integer [maxLength]. *)
Definition truncateText (text : jsstring) (maxLength : Z) : jsstring :=
  if (Z.of_nat (List.length text) <=? maxLength)%Z then text
  else substring0 text maxLength ++ lit "...".

(* ================================================================== *)
(** ** The view calling the hook *)
(* ================================================================== *)

(** The functions [useTodos] returns, as an event handler of the view calls
    them: each call is made from the latest render, and the boolean of
    [addTodo] is left to the form. *)
Inductive Call : Type :=
| CallFetchTodos
| CallSearchTodos (query : jsstring)
| CallAddTodo (todoData : CreateTodoDto.t)
| CallToggleTodo (id : Z)
| CallChangeStatus (id : Z) (newStatus : TodoStatus)
| CallDeleteTodoById (id : Z)
| CallDeleteAllCompleted.

Definition perform {B : Type} (env : Environment B) (c : Call) : M B unit :=
  match c with
  | CallFetchTodos => fetchTodos env
  | CallSearchTodos query => searchTodos env query
  | CallAddTodo todoData =>
      fromRender (fun todos => addTodo env todos todoData) ;; ret tt
  | CallToggleTodo id => fromRender (fun todos => toggleTodo env todos id)
  | CallChangeStatus id newStatus =>
      fromRender (fun todos => changeStatus env todos id newStatus)
  | CallDeleteTodoById id =>
      fromRender (fun todos => deleteTodoById env todos id)
  | CallDeleteAllCompleted => fromRender (deleteAllCompleted env)
  end.

(** Calls made one after the other, each once the previous one has settled
    and the component has rendered again. *)
Fixpoint performAll {B : Type} (env : Environment B) (cs : list Call)
  : M B unit :=
  match cs with
  | [] => ret tt
  | c :: rest => perform env c ;; performAll env rest
  end.

(** A timer that fires: it leaves the pending timers and its callback
    runs.  [k] is its place among the pending timers; nothing happens when
    there is no such timer. *)
Definition runCallback {B : Type} (cb : Callback) : M B unit :=
  match cb with
  | ClearError => setError []
  end.

Definition fireTimer {B : Type} (k : nat) : M B unit :=
  fun w =>
    match nth_error (timers w) k with
    | None => (Ok tt, w)
    | Some (cb, _) =>
        runCallback cb
          {| store := store w;
             timers := firstn k (timers w) ++ skipn (S k) (timers w);
             trace := trace w; backend := backend w |}
    end.

(** What happens to the hook from one render to the next: the view calls one
    of its functions, or a pending timer fires (in any order: the model has
    no clock).  A timer that fires while a call awaits the backend is taken
    as firing just before that call: before its [await] a call writes only
    the loading flags, and a timer writes only the error message and the
    pending timers. *)
Inductive Step : Type :=
| StepCall (c : Call)
| StepTimer (k : nat).

Definition step {B : Type} (env : Environment B) (s : Step) : M B unit :=
  match s with
  | StepCall c => perform env c
  | StepTimer k => fireTimer k
  end.

Fixpoint runSteps {B : Type} (env : Environment B) (ss : list Step)
  : M B unit :=
  match ss with
  | [] => ret tt
  | s :: rest => step env s ;; runSteps env rest
  end.

(** What the backend answers to one deletion per id, asked in the order of
    the list from the state [b], and the state it is left in. *)
Fixpoint deleteAnswers {B : Type} (env : Environment B) (ids : list Z)
    (b : B) : list (Result unit) * B :=
  match ids with
  | [] => ([], b)
  | id :: rest =>
      let (r, b1) := onDelete env id b in
      let (rs, b2) := deleteAnswers env rest b1 in
      (r :: rs, b2)
  end.

(* ================================================================== *)
(** ** What every function of the hook leaves behind *)
(* ================================================================== *)

(** The outcome [out] of a call made in the world [w]: the promise is
    resolved; neither loading flag is left on if it was off; and either the
    error and the timers are untouched, or one timer that clears the error
    has been queued behind the existing ones, 3 or 5 seconds ahead. *)
Definition wellSettled {B A : Type} (w : World B) (out : Result A * World B)
  : Prop :=
  (exists a, fst out = Ok a) /\
  (Store.loading (store w) = false ->
   Store.loading (store (snd out)) = false) /\
  (Store.initialLoading (store w) = false ->
   Store.initialLoading (store (snd out)) = false) /\
  ((Store.error (store (snd out)) = Store.error (store w) /\
    timers (snd out) = timers w) \/
   (exists ms, timers (snd out) = timers w ++ [(ClearError, ms)] /\
               (ms = 3000 \/ ms = 5000)%Z)).

(* ================================================================== *)
(** ** Environments used in the examples *)
(* ================================================================== *)

(** An environment without memory: every endpoint answers by a fixed rule
    and the user always gives the same answer. *)
Definition scripted
  (fa : Result (list Todo.t)) (se : jsstring -> Result (list Todo.t))
  (cr : CreateTodoDto.t -> Result Todo.t)
  (up : Z -> UpdateTodoDto.t -> Result Todo.t)
  (de : Z -> Result unit) (cf : bool) : Environment unit :=
  {| onFetchAll := fun b => (fa, b);
     onSearch := fun q b => (se q, b);
     onCreate := fun dto b => (cr dto, b);
     onUpdate := fun id dto b => (up id dto, b);
     onDelete := fun id b => (de id, b);
     onConfirm := fun _ b => (cf, b) |}.

Definition http500 : Thrown :=
  ErrorInstance (lit "Error 500: Internal Server Error").

(** A backend that stores what it is sent: an update is answered with the
    submitted record under the requested id, a creation with id 1 and status
    PENDING; every other call succeeds with nothing to report. *)
Definition echoEnv : Environment unit :=
  scripted (Ok []) (fun _ => Ok [])
    (fun dto => Ok (Todo.mk 1 (CreateTodoDto.title dto)
                      (CreateTodoDto.description dto) PENDING None None))
    (fun id dto => Ok (Todo.mk id (UpdateTodoDto.title dto)
                         (UpdateTodoDto.description dto)
                         (UpdateTodoDto.status dto) None None))
    (fun _ => Ok tt) true.

(** A backend that answers every call with an error; the user confirms. *)
Definition failingEnv : Environment unit :=
  scripted (Rejected http500) (fun _ => Rejected http500)
    (fun _ => Rejected http500) (fun _ _ => Rejected http500)
    (fun _ => Rejected http500) true.

(** A user who declines every confirmation (deletions would succeed). *)
Definition decliningEnv : Environment unit :=
  scripted (Ok []) (fun _ => Ok []) (fun _ => Rejected http500)
    (fun _ _ => Rejected http500) (fun _ => Ok tt) false.

(** A backend holding the list [stored], whose search finds [found]. *)
Definition listingEnv (stored found : list Todo.t) : Environment unit :=
  scripted (Ok stored) (fun _ => Ok found) (fun _ => Rejected http500)
    (fun _ _ => Rejected http500) (fun _ => Ok tt) true.

(** A backend that counts the deletions it receives and refuses the second
    one, whatever its id. *)
Definition refuseSecondEnv : Environment nat :=
  {| onFetchAll := fun n => (Ok [], n);
     onSearch := fun _ n => (Ok [], n);
     onCreate := fun _ n => (Rejected http500, n);
     onUpdate := fun _ _ n => (Rejected http500, n);
     onDelete := fun _ n =>
       (if (n =? 1)%nat then Rejected http500 else Ok tt, S n);
     onConfirm := fun _ n => (true, n) |}.

Definition worldWith {B : Type} (l : list Todo.t) (b : B) : World B :=
  {| store := {| Store.todos := l; Store.loading := false;
                 Store.error := []; Store.initialLoading := false |};
     timers := []; trace := []; backend := b |}.

Definition mkTodo (id : Z) (title : string) (st : TodoStatus) : Todo.t :=
  Todo.mk id (lit title) (lit "-") st None None.

Definition worldOf (l : list Todo.t) : World unit :=
  {| store := {| Store.todos := l; Store.loading := false;
                 Store.error := []; Store.initialLoading := false |};
     timers := []; trace := []; backend := tt |}.

(* ================================================================== *)
(** * Properties *)
(* ================================================================== *)

Unset Implicit Arguments.

(** ** Strings *)

Lemma trimStart_nil_iff (s : jsstring) :
  trimStart s = [] <-> forallb isWhiteSpace s = true.
Proof.
  induction s as [|c r IH]; simpl.
  - tauto.
  - destruct (isWhiteSpace c); simpl.
    + exact IH.
    + split; discriminate.
Qed.

(** Trimming leaves nothing exactly when every code unit is white space. *)
Lemma trim_nil_iff (s : jsstring) :
  trim s = [] <-> forallb isWhiteSpace s = true.
Proof.
  unfold trim, trimEnd. split.
  - intro H. apply trimStart_nil_iff.
    destruct (trimStart s) as [|c r] eqn:E; [reflexivity|].
    exfalso.
    assert (Hr : trimStart (rev (c :: r)) = []).
    { apply (f_equal (@rev N)) in H. rewrite rev_involutive in H. exact H. }
    apply trimStart_nil_iff in Hr.
    rewrite forallb_forall in Hr.
    assert (Hc : isWhiteSpace c = true) by (apply Hr, in_rev; rewrite rev_involutive; left; reflexivity).
    simpl in E. destruct s as [|c0 r0]; [discriminate|].
    simpl in E. destruct (isWhiteSpace c0) eqn:E0.
    + clear E0 Hr H. revert c r E Hc. induction r0 as [|d r1 IH]; intros c r E Hc; simpl in E.
      * discriminate.
      * destruct (isWhiteSpace d) eqn:Ed.
        -- eapply IH; eauto.
        -- injection E as <- _. congruence.
    + injection E as <- _. congruence.
  - intro H. apply trimStart_nil_iff in H. rewrite H. reflexivity.
Qed.

Lemma isEmpty_true_iff (s : jsstring) : isEmpty s = true <-> s = [].
Proof. destruct s; simpl; split; congruence. Qed.

Lemma isEmpty_false_iff (s : jsstring) : isEmpty s = false <-> s <> [].
Proof. destruct s; simpl; split; congruence. Qed.

Example trim_example :
  trim (lit "  Buy milk ") = lit "Buy milk" /\ trim (lit "   ") = [] /\
  trim [0xA0%N; 9%N; 0x2028%N] = [].
Proof. repeat split; reflexivity. Qed.

(** ** Running the hook's functions *)

Ltac run_js :=
  unfold fromRender, tryFinally, tryCatch, handleApiError,
    todosApi.fetchAllTodos, todosApi.searchTodos, todosApi.createTodo,
    todosApi.updateTodo, todosApi.deleteTodo, window_confirm,
    setTodos, setLoading, setError, setInitialLoading, setTimeout,
    notAwaited, bind, ret, throw, emit, modifyStore, ask, await;
  cbn.

Section Runs.
Context {B : Type} (env : Environment B).

Lemma fetchTodos_resolved (w : World B) data b' :
  onFetchAll env (backend w) = (Ok data, b') ->
  fetchTodos env w =
  (Ok tt,
   {| store := {| Store.todos := data;
                  Store.loading := Store.loading (store w);
                  Store.error := Store.error (store w);
                  Store.initialLoading := false |};
      timers := timers w;
      trace := trace w ++ [EvSetInitialLoading true; EvRequest ReqFetchAll;
                           EvSetTodos data; EvSetInitialLoading false];
      backend := b' |}).
Proof.
  intro H. unfold fetchTodos. run_js. rewrite H. cbn.
  repeat rewrite <- app_assoc. reflexivity.
Qed.

Lemma fetchTodos_rejected (w : World B) e b' :
  onFetchAll env (backend w) = (Rejected e, b') ->
  let msg := errorMessage e (lit "Error al cargar las tareas") in
  fetchTodos env w =
  (Ok tt,
   {| store := {| Store.todos := [];
                  Store.loading := Store.loading (store w);
                  Store.error := msg;
                  Store.initialLoading := false |};
      timers := timers w ++ [(ClearError, 5000%Z)];
      trace := trace w ++ [EvSetInitialLoading true; EvRequest ReqFetchAll;
                           EvSetError msg; EvSetTimeout ClearError 5000;
                           EvSetTodos []; EvSetInitialLoading false];
      backend := b' |}).
Proof.
  intro H. unfold fetchTodos. run_js. rewrite H. cbn.
  repeat rewrite <- app_assoc. reflexivity.
Qed.

Lemma searchTodos_blank (w : World B) query :
  trim query = [] ->
  searchTodos env query w = (Ok tt, snd (fetchTodos env w)).
Proof.
  intro H. unfold searchTodos. rewrite H. reflexivity.
Qed.

Lemma searchTodos_resolved (w : World B) query data b' :
  trim query <> [] ->
  isWellFormed query = true ->
  onSearch env query (backend w) = (Ok data, b') ->
  searchTodos env query w =
  (Ok tt,
   {| store := {| Store.todos := data;
                  Store.loading := false;
                  Store.error := Store.error (store w);
                  Store.initialLoading := Store.initialLoading (store w) |};
      timers := timers w;
      trace := trace w ++ [EvSetLoading true; EvRequest (ReqSearch query);
                           EvSetTodos data; EvSetLoading false];
      backend := b' |}).
Proof.
  intros Hq Hwf H. unfold searchTodos.
  apply isEmpty_false_iff in Hq. rewrite Hq.
  unfold todosApi.searchTodos. rewrite Hwf.
  run_js. rewrite H. cbn.
  repeat rewrite <- app_assoc. reflexivity.
Qed.

Lemma searchTodos_rejected (w : World B) query e b' :
  trim query <> [] ->
  isWellFormed query = true ->
  onSearch env query (backend w) = (Rejected e, b') ->
  let msg := errorMessage e (lit "Error al buscar tareas") in
  searchTodos env query w =
  (Ok tt,
   {| store := {| Store.todos := Store.todos (store w);
                  Store.loading := false;
                  Store.error := msg;
                  Store.initialLoading := Store.initialLoading (store w) |};
      timers := timers w ++ [(ClearError, 5000%Z)];
      trace := trace w ++ [EvSetLoading true; EvRequest (ReqSearch query);
                           EvSetError msg; EvSetTimeout ClearError 5000;
                           EvSetLoading false];
      backend := b' |}).
Proof.
  intros Hq Hwf H. unfold searchTodos.
  apply isEmpty_false_iff in Hq. rewrite Hq.
  unfold todosApi.searchTodos. rewrite Hwf.
  run_js. rewrite H. cbn.
  repeat rewrite <- app_assoc. reflexivity.
Qed.

Lemma searchTodos_malformed (w : World B) query :
  trim query <> [] ->
  isWellFormed query = false ->
  searchTodos env query w =
  (Ok tt,
   {| store := {| Store.todos := Store.todos (store w);
                  Store.loading := false;
                  Store.error := msgURIMalformed;
                  Store.initialLoading := Store.initialLoading (store w) |};
      timers := timers w ++ [(ClearError, 5000%Z)];
      trace := trace w ++ [EvSetLoading true;
                           EvSetError msgURIMalformed;
                           EvSetTimeout ClearError 5000;
                           EvSetLoading false];
      backend := backend w |}).
Proof.
  intros Hq Hwf. unfold searchTodos.
  apply isEmpty_false_iff in Hq. rewrite Hq.
  unfold todosApi.searchTodos. rewrite Hwf.
  run_js.
  repeat rewrite <- app_assoc. reflexivity.
Qed.
End Runs.

Lemma requests_app (tr1 tr2 : list Event) :
  requests (tr1 ++ tr2) = requests tr1 ++ requests tr2.
Proof.
  induction tr1 as [|e tr1 IH]; simpl; [reflexivity|].
  destruct e; simpl; rewrite IH; reflexivity.
Qed.

(** ** [fetchTodos] and [searchTodos] *)

(** C8: [fetchTodos] sets [initialLoading], calls [fetchAllTodos], then puts
    the fetched list in the store when the call resolves, and the empty list
    together with the error message when it rejects; in both cases the last
    effect is [setInitialLoading(false)]. *)
Theorem fetchTodos_spec {B} (env : Environment B) (w : World B) :
  (forall data b',
      onFetchAll env (backend w) = (Ok data, b') ->
      fetchTodos env w =
      (Ok tt,
       {| store := {| Store.todos := data;
                      Store.loading := Store.loading (store w);
                      Store.error := Store.error (store w);
                      Store.initialLoading := false |};
          timers := timers w;
          trace := trace w ++
                   [EvSetInitialLoading true; EvRequest ReqFetchAll;
                    EvSetTodos data; EvSetInitialLoading false];
          backend := b' |}))
  /\
  (forall e b',
      onFetchAll env (backend w) = (Rejected e, b') ->
      let msg := errorMessage e (lit "Error al cargar las tareas") in
      fetchTodos env w =
      (Ok tt,
       {| store := {| Store.todos := [];
                      Store.loading := Store.loading (store w);
                      Store.error := msg;
                      Store.initialLoading := false |};
          timers := timers w ++ [(ClearError, 5000%Z)];
          trace := trace w ++
                   [EvSetInitialLoading true; EvRequest ReqFetchAll;
                    EvSetError msg; EvSetTimeout ClearError 5000;
                    EvSetTodos []; EvSetInitialLoading false];
          backend := b' |})).
Proof.
  split; intros.
  - now apply fetchTodos_resolved.
  - now apply fetchTodos_rejected.
Qed.

Lemma fetchTodos_spec_witness :
  let stored := [mkTodo 1 "a" PENDING; mkTodo 2 "b" COMPLETED] in
  let w := worldOf [mkTodo 9 "old" CANCELLED] in
  Store.todos (store (snd (fetchTodos (listingEnv stored []) w))) = stored /\
  Store.initialLoading (store (snd (fetchTodos (listingEnv stored []) w))) = false /\
  Store.todos (store (snd (fetchTodos failingEnv w))) = [] /\
  Store.initialLoading (store (snd (fetchTodos failingEnv w))) = false.
Proof.
  intros stored w.
  pose proof (proj1 (fetchTodos_spec (listingEnv stored []) w) stored tt eq_refl) as H1.
  pose proof (proj2 (fetchTodos_spec failingEnv w) http500 tt eq_refl) as H2.
  cbv zeta in H2.
  rewrite H1, H2. cbn. auto.
Defined.




(** C10: when the call of the search endpoint fails for a query that is not
    empty once trimmed, [searchTodos] keeps the list as it was: it shows the
    error message, queues its removal, and clears [loading].  This is so
    when the backend rejects the request, and when the query has a lone
    surrogate and the call fails before the request.  A rejected
    [fetchAllTodos] in [fetchTodos], on the contrary, empties the list. *)
Theorem searchTodos_failure_keeps_list {B} (env : Environment B)
    (w : World B) (query : jsstring) (e : Thrown) (b' : B) :
  trim query <> [] ->
  (isWellFormed query = true ->
   onSearch env query (backend w) = (Rejected e, b') ->
   let msg := errorMessage e (lit "Error al buscar tareas") in
   searchTodos env query w =
   (Ok tt,
    {| store := {| Store.todos := Store.todos (store w);
                   Store.loading := false;
                   Store.error := msg;
                   Store.initialLoading := Store.initialLoading (store w) |};
       timers := timers w ++ [(ClearError, 5000%Z)];
       trace := trace w ++
                [EvSetLoading true; EvRequest (ReqSearch query);
                 EvSetError msg; EvSetTimeout ClearError 5000;
                 EvSetLoading false];
       backend := b' |}))
  /\
  (isWellFormed query = false ->
   searchTodos env query w =
   (Ok tt,
    {| store := {| Store.todos := Store.todos (store w);
                   Store.loading := false;
                   Store.error := msgURIMalformed;
                   Store.initialLoading := Store.initialLoading (store w) |};
       timers := timers w ++ [(ClearError, 5000%Z)];
       trace := trace w ++
                [EvSetLoading true; EvSetError msgURIMalformed;
                 EvSetTimeout ClearError 5000; EvSetLoading false];
       backend := backend w |}))
  /\
  (forall e0 b0,
      onFetchAll env (backend w) = (Rejected e0, b0) ->
      Store.todos (store (snd (fetchTodos env w))) = []).
Proof.
  intros Hq. split; [|split].
  - intros Hwf H msg. now apply searchTodos_rejected.
  - intro Hwf. now apply searchTodos_malformed.
  - intros e0 b0 H0. rewrite (fetchTodos_rejected env w _ _ H0). reflexivity.
Qed.

Lemma searchTodos_failure_keeps_list_witness :
  let prior := [mkTodo 1 "milk" PENDING; mkTodo 2 "bread" COMPLETED] in
  Store.todos (store (snd (searchTodos failingEnv (lit "milk") (worldOf prior))))
  = prior /\
  Store.todos (store (snd (searchTodos failingEnv [0xDC00%N] (worldOf prior))))
  = prior /\
  Store.todos (store (snd (fetchTodos failingEnv (worldOf prior)))) = [].
Proof.
  intro prior.
  assert (Hn : trim (lit "milk") <> []) by discriminate.
  assert (Hs : trim [0xDC00%N] <> []) by discriminate.
  destruct (@searchTodos_failure_keeps_list unit failingEnv (worldOf prior)
              (lit "milk") http500 tt Hn) as (H1 & _ & H2).
  destruct (@searchTodos_failure_keeps_list unit failingEnv (worldOf prior)
              [0xDC00%N] http500 tt Hs) as (_ & H3 & _).
  split; [|split].
  - rewrite (H1 eq_refl eq_refl). reflexivity.
  - rewrite (H3 eq_refl). reflexivity.
  - exact (H2 http500 tt eq_refl).
Defined.

(** ** [addTodo] *)

Section RunsOfAddTodo.
Context {B : Type} (env : Environment B).

Lemma addTodo_blank (w : World B) title description :
  trim title = [] \/ trim description = [] ->
  fromRender (fun todos => addTodo env todos (CreateTodoDto.mk title description)) w =
  (Ok false,
   {| store := {| Store.todos := Store.todos (store w);
                  Store.loading := Store.loading (store w);
                  Store.error := msgRequired;
                  Store.initialLoading := Store.initialLoading (store w) |};
      timers := timers w ++ [(ClearError, 3000%Z)];
      trace := trace w ++ [EvSetError msgRequired;
                           EvSetTimeout ClearError 3000];
      backend := backend w |}).
Proof.
  intro H. unfold fromRender, addTodo. cbn [CreateTodoDto.title CreateTodoDto.description].
  assert (Hb : isEmpty (trim title) || isEmpty (trim description) = true).
  { destruct H as [H|H]; rewrite H; cbn; auto using orb_true_r. }
  rewrite Hb. run_js. repeat rewrite <- app_assoc. reflexivity.
Qed.

Lemma addTodo_resolved (w : World B) title description newTodo b' :
  trim title <> [] -> trim description <> [] ->
  onCreate env (CreateTodoDto.mk (trim title) (trim description)) (backend w)
    = (Ok newTodo, b') ->
  fromRender (fun todos => addTodo env todos (CreateTodoDto.mk title description)) w =
  (Ok true,
   {| store := {| Store.todos := Store.todos (store w) ++ [newTodo];
                  Store.loading := false;
                  Store.error := Store.error (store w);
                  Store.initialLoading := Store.initialLoading (store w) |};
      timers := timers w;
      trace := trace w ++
               [EvSetLoading true;
                EvRequest (ReqCreate (CreateTodoDto.mk (trim title) (trim description)));
                EvSetTodos (Store.todos (store w) ++ [newTodo]);
                EvSetLoading false];
      backend := b' |}).
Proof.
  intros Ht Hd H. unfold fromRender, addTodo.
  cbn [CreateTodoDto.title CreateTodoDto.description].
  apply isEmpty_false_iff in Ht, Hd. rewrite Ht, Hd. cbn [orb].
  run_js. rewrite H. cbn. repeat rewrite <- app_assoc. reflexivity.
Qed.

Lemma addTodo_rejected (w : World B) title description e b' :
  trim title <> [] -> trim description <> [] ->
  onCreate env (CreateTodoDto.mk (trim title) (trim description)) (backend w)
    = (Rejected e, b') ->
  let msg := errorMessage e (lit "Error al crear la tarea") in
  fromRender (fun todos => addTodo env todos (CreateTodoDto.mk title description)) w =
  (Ok false,
   {| store := {| Store.todos := Store.todos (store w);
                  Store.loading := false;
                  Store.error := msg;
                  Store.initialLoading := Store.initialLoading (store w) |};
      timers := timers w ++ [(ClearError, 5000%Z)];
      trace := trace w ++
               [EvSetLoading true;
                EvRequest (ReqCreate (CreateTodoDto.mk (trim title) (trim description)));
                EvSetError msg; EvSetTimeout ClearError 5000;
                EvSetLoading false];
      backend := b' |}).
Proof.
  intros Ht Hd H. unfold fromRender, addTodo.
  cbn [CreateTodoDto.title CreateTodoDto.description].
  apply isEmpty_false_iff in Ht, Hd. rewrite Ht, Hd. cbn [orb].
  run_js. rewrite H. cbn. repeat rewrite <- app_assoc. reflexivity.
Qed.
End RunsOfAddTodo.

Lemma count_occ_snoc_fresh (l : list Z) (x : Z) :
  ~ In x l -> count_occ Z.eq_dec (l ++ [x]) x = 1%nat.
Proof.
  intro H. rewrite count_occ_app.
  apply (count_occ_not_In Z.eq_dec) in H. rewrite H. simpl.
  destruct (Z.eq_dec x x); congruence.
Qed.

(** C4: when the title or the description is empty once trimmed, [addTodo]
    sends nothing to the backend, leaves the list of tasks as it is, shows
    the message that both fields are required, and returns [false]. *)
Theorem addTodo_rejects_blank {B} (env : Environment B) (w : World B)
    (title description : jsstring) :
  trim title = [] \/ trim description = [] ->
  let out :=
    fromRender
      (fun todos => addTodo env todos (CreateTodoDto.mk title description)) w in
  fst out = Ok false /\
  requests (trace (snd out)) = requests (trace w) /\
  backend (snd out) = backend w /\
  Store.todos (store (snd out)) = Store.todos (store w) /\
  Store.error (store (snd out)) = msgRequired /\
  trace (snd out) =
    trace w ++ [EvSetError msgRequired; EvSetTimeout ClearError 3000].
Proof.
  intros H out. subst out. rewrite (addTodo_blank env w _ _ H). cbn.
  rewrite requests_app. cbn. rewrite app_nil_r. auto 10.
Qed.

Lemma addTodo_rejects_blank_witness :
  let w := worldOf [mkTodo 1 "milk" PENDING] in
  let out :=
    fromRender
      (fun todos => addTodo echoEnv todos
                      (CreateTodoDto.mk [0x20; 0x09; 0xA0]%N (lit "2% milk"))) w in
  trim [0x20; 0x09; 0xA0]%N = [] /\
  fst out = Ok false /\
  requests (trace (snd out)) = [] /\
  Store.todos (store (snd out)) = [mkTodo 1 "milk" PENDING] /\
  Store.error (store (snd out)) = msgRequired.
Proof.
  intros w out.
  assert (Hb : trim [0x20; 0x09; 0xA0]%N = []) by reflexivity.
  destruct (addTodo_rejects_blank echoEnv w [0x20; 0x09; 0xA0]%N (lit "2% milk")
              (or_introl Hb)) as (H1 & H2 & _ & H3 & H4 & _).
  split; [exact Hb|]. split; [exact H1|]. split; [exact H2|].
  split; [exact H3|exact H4].
Defined.

(** C5: when the title and the description are both non-empty once trimmed,
    [addTodo] sends exactly one creation request, carrying the trimmed
    values; when the request succeeds it returns [true] and the list is the
    former list followed by the task the backend returned, whose id occurs
    exactly once in it provided it did not occur before. *)
Theorem addTodo_creates_once {B} (env : Environment B) (w : World B)
    (title description : jsstring) :
  trim title <> [] -> trim description <> [] ->
  let dto := CreateTodoDto.mk (trim title) (trim description) in
  let out :=
    fromRender
      (fun todos => addTodo env todos (CreateTodoDto.mk title description)) w in
  requests (trace (snd out)) = requests (trace w) ++ [ReqCreate dto] /\
  forall newTodo b',
    onCreate env dto (backend w) = (Ok newTodo, b') ->
    fst out = Ok true /\
    Store.todos (store (snd out)) = Store.todos (store w) ++ [newTodo] /\
    (~ In (Todo.id newTodo) (map Todo.id (Store.todos (store w))) ->
     count_occ Z.eq_dec (map Todo.id (Store.todos (store (snd out))))
       (Todo.id newTodo) = 1%nat).
Proof.
  intros Ht Hd dto out. subst dto out.
  destruct (onCreate env (CreateTodoDto.mk (trim title) (trim description))
              (backend w)) as [[t|e] b1] eqn:E.
  - rewrite (addTodo_resolved env w _ _ _ _ Ht Hd E). cbn.
    rewrite requests_app. split; [reflexivity|].
    intros newTodo b' H. injection H as -> _.
    split; [reflexivity|]. split; [reflexivity|].
    intro Hfresh. rewrite map_app. cbn. now apply count_occ_snoc_fresh.
  - rewrite (addTodo_rejected env w _ _ _ _ Ht Hd E). cbn.
    rewrite requests_app. split; [reflexivity|].
    intros newTodo b' H. discriminate H.
Qed.

Lemma addTodo_creates_once_witness :
  let out :=
    fromRender
      (fun todos => addTodo echoEnv todos
                      (CreateTodoDto.mk (lit " Buy milk ")
                                        (lit "2% milk, 1 gallon")))
      (worldOf []) in
  requests (trace (snd out)) =
    [ReqCreate (CreateTodoDto.mk (lit "Buy milk") (lit "2% milk, 1 gallon"))] /\
  fst out = Ok true /\
  Store.todos (store (snd out)) =
    [Todo.mk 1 (lit "Buy milk") (lit "2% milk, 1 gallon") PENDING None None] /\
  count_occ Z.eq_dec (map Todo.id (Store.todos (store (snd out)))) 1%Z = 1%nat.
Proof.
  intro out.
  assert (Ht : trim (lit " Buy milk ") <> []) by discriminate.
  assert (Hd : trim (lit "2% milk, 1 gallon") <> []) by discriminate.
  destruct (addTodo_creates_once echoEnv (worldOf []) _ _ Ht Hd) as [H1 H2].
  destruct (H2 (Todo.mk 1 (lit "Buy milk") (lit "2% milk, 1 gallon")
                  PENDING None None) tt eq_refl) as (H3 & H4 & H5).
  split; [exact H1|]. split; [exact H3|]. split; [exact H4|].
  apply H5. intros [].
Defined.

(** ** [toggleTodo] *)

Lemma find_none_iff (id : Z) (l : list Todo.t) :
  find (fun t => Todo.id t =? id)%Z l = None <-> ~ In id (map Todo.id l).
Proof.
  induction l as [|t l IH]; simpl.
  - tauto.
  - destruct (Z.eqb_spec (Todo.id t) id) as [E|E].
    + split; [discriminate|]. intro H. exfalso. apply H. now left.
    + rewrite IH. tauto.
Qed.

Lemma find_replaced (id : Z) (r todo : Todo.t) (l : list Todo.t) :
  Todo.id r = id ->
  find (fun t => Todo.id t =? id)%Z l = Some todo ->
  find (fun t => Todo.id t =? id)%Z
       (map (fun t => if (Todo.id t =? id)%Z then r else t) l) = Some r.
Proof.
  intros Hr. induction l as [|t l IH]; simpl; [discriminate|].
  destruct (Z.eqb_spec (Todo.id t) id) as [E|E]; intro H.
  - rewrite Hr, Z.eqb_refl. reflexivity.
  - apply Z.eqb_neq in E. rewrite E. now apply IH.
Qed.

Lemma in_replaced (id : Z) (r t : Todo.t) (l : list Todo.t) :
  In t (map (fun t => if (Todo.id t =? id)%Z then r else t) l) ->
  Todo.id t = id -> Todo.id r = id -> t = r.
Proof.
  intros Hin Ht Hr. apply in_map_iff in Hin. destruct Hin as (t0 & E & _).
  destruct (Z.eqb_spec (Todo.id t0) id) as [E0|E0]; congruence.
Qed.

Section RunsOfToggleTodo.
Context {B : Type} (env : Environment B).

Lemma toggleTodo_absent (w : World B) id :
  find (fun t => Todo.id t =? id)%Z (Store.todos (store w)) = None ->
  fromRender (fun todos => toggleTodo env todos id) w = (Ok tt, w).
Proof.
  intro H. unfold fromRender, toggleTodo. rewrite H. reflexivity.
Qed.

Lemma toggleTodo_sends (todo : Todo.t) :
  (if status_eqb (Todo.status todo) COMPLETED then PENDING else COMPLETED)
  = toggledStatus (Todo.status todo).
Proof. destruct (Todo.status todo); reflexivity. Qed.

Lemma toggleTodo_resolved (w : World B) id todo r b' :
  find (fun t => Todo.id t =? id)%Z (Store.todos (store w)) = Some todo ->
  let dto := UpdateTodoDto.mk (Todo.title todo) (Todo.description todo)
               (toggledStatus (Todo.status todo)) in
  onUpdate env id dto (backend w) = (Ok r, b') ->
  let todos' := map (fun t => if (Todo.id t =? id)%Z then r else t)
                    (Store.todos (store w)) in
  fromRender (fun todos => toggleTodo env todos id) w =
  (Ok tt,
   {| store := {| Store.todos := todos';
                  Store.loading := Store.loading (store w);
                  Store.error := Store.error (store w);
                  Store.initialLoading := Store.initialLoading (store w) |};
      timers := timers w;
      trace := trace w ++ [EvRequest (ReqUpdate id dto); EvSetTodos todos'];
      backend := b' |}).
Proof.
  intros Hf dto H todos'. unfold fromRender, toggleTodo. rewrite Hf.
  rewrite toggleTodo_sends. run_js. fold dto. rewrite H. cbn.
  repeat rewrite <- app_assoc. reflexivity.
Qed.

Lemma toggleTodo_rejected (w : World B) id todo e b' :
  find (fun t => Todo.id t =? id)%Z (Store.todos (store w)) = Some todo ->
  let dto := UpdateTodoDto.mk (Todo.title todo) (Todo.description todo)
               (toggledStatus (Todo.status todo)) in
  onUpdate env id dto (backend w) = (Rejected e, b') ->
  let msg := errorMessage e (lit "Error al actualizar la tarea") in
  fromRender (fun todos => toggleTodo env todos id) w =
  (Ok tt,
   {| store := {| Store.todos := Store.todos (store w);
                  Store.loading := Store.loading (store w);
                  Store.error := msg;
                  Store.initialLoading := Store.initialLoading (store w) |};
      timers := timers w ++ [(ClearError, 5000%Z)];
      trace := trace w ++ [EvRequest (ReqUpdate id dto);
                           EvSetError msg; EvSetTimeout ClearError 5000];
      backend := b' |}).
Proof.
  intros Hf dto H msg. unfold fromRender, toggleTodo. rewrite Hf.
  rewrite toggleTodo_sends. run_js. fold dto. rewrite H. cbn.
  repeat rewrite <- app_assoc. reflexivity.
Qed.
End RunsOfToggleTodo.

(** C2: [toggleTodo(id)] does nothing at all when no task of the list has
    that id.  Otherwise, for the task [find] returns, it sends one update
    carrying the task's title and description and the status PENDING if the
    task is COMPLETED, COMPLETED if it is PENDING, IN_PROGRESS or CANCELLED;
    when the update succeeds every entry with that id is replaced by the
    response, so that, the response carrying the id and the status that were
    sent, the entry for that id has the status that was sent. *)
Theorem toggleTodo_spec {B} (env : Environment B) (w : World B) (id : Z) :
  let out := fromRender (fun todos => toggleTodo env todos id) w in
  (~ In id (map Todo.id (Store.todos (store w))) -> out = (Ok tt, w))
  /\
  (forall todo,
      find (fun t => Todo.id t =? id)%Z (Store.todos (store w)) = Some todo ->
      let dto := UpdateTodoDto.mk (Todo.title todo) (Todo.description todo)
                   (toggledStatus (Todo.status todo)) in
      requests (trace (snd out)) = requests (trace w) ++ [ReqUpdate id dto] /\
      forall r b',
        onUpdate env id dto (backend w) = (Ok r, b') ->
        Store.todos (store (snd out)) =
          map (fun t => if (Todo.id t =? id)%Z then r else t)
              (Store.todos (store w)) /\
        (Todo.id r = id ->
         Todo.status r = toggledStatus (Todo.status todo) ->
         find (fun t => Todo.id t =? id)%Z (Store.todos (store (snd out)))
           = Some r /\
         forall t, In t (Store.todos (store (snd out))) ->
                   Todo.id t = id ->
                   Todo.status t = toggledStatus (Todo.status todo))).
Proof.
  intro out. subst out. split.
  - intro H. apply find_none_iff in H. now apply toggleTodo_absent.
  - intros todo Hf dto.
    destruct (onUpdate env id dto (backend w)) as [[r0|e] b0] eqn:E.
    + rewrite (toggleTodo_resolved env w id todo r0 b0 Hf E). cbn.
      rewrite requests_app. split; [reflexivity|].
      intros r b' H. injection H as -> _.
      split; [reflexivity|]. intros Hid Hst. split.
      * now apply find_replaced with (todo := todo).
      * intros t Hin Ht. rewrite (in_replaced id r t _ Hin Ht Hid). exact Hst.
    + rewrite (toggleTodo_rejected env w id todo e b0 Hf E). cbn.
      rewrite requests_app. split; [reflexivity|].
      intros r b' H. discriminate H.
Qed.

Lemma toggleTodo_spec_witness :
  let w := worldOf [mkTodo 4 "milk" PENDING; mkTodo 5 "report" CANCELLED] in
  fromRender (fun todos => toggleTodo echoEnv todos 7) w = (Ok tt, w) /\
  requests (trace (snd (fromRender (fun todos => toggleTodo echoEnv todos 5) w)))
    = [ReqUpdate 5 (UpdateTodoDto.mk (lit "report") (lit "-") COMPLETED)] /\
  Store.todos (store (snd (fromRender (fun todos => toggleTodo echoEnv todos 5) w)))
    = [mkTodo 4 "milk" PENDING; mkTodo 5 "report" COMPLETED].
Proof.
  intro w.
  assert (Habs : ~ In 7%Z (map Todo.id (Store.todos (store w)))).
  { cbn. intros [H|[H|[]]]; discriminate H. }
  pose proof (proj1 (toggleTodo_spec echoEnv w 7) Habs) as H1.
  destruct (proj2 (toggleTodo_spec echoEnv w 5) (mkTodo 5 "report" CANCELLED)
              eq_refl) as [H2 H3].
  destruct (H3 (mkTodo 5 "report" COMPLETED) tt eq_refl) as [H4 _].
  split; [exact H1|]. split; [exact H2|exact H4].
Defined.

(** C3, as amended: two calls of [toggleTodo(id)], the second from the
    render that follows the first one's response, both answered by the
    backend with the id and the status it was sent, leave the task PENDING,
    except a task that was COMPLETED, which is COMPLETED again.  The
    original status is restored exactly when it was PENDING or COMPLETED. *)
Theorem toggleTodo_twice {B} (env : Environment B) (w : World B) (id : Z)
    (todo r1 r2 : Todo.t) (b1 b2 : B) :
  find (fun t => Todo.id t =? id)%Z (Store.todos (store w)) = Some todo ->
  onUpdate env id
    (UpdateTodoDto.mk (Todo.title todo) (Todo.description todo)
       (toggledStatus (Todo.status todo))) (backend w) = (Ok r1, b1) ->
  Todo.id r1 = id ->
  Todo.status r1 = toggledStatus (Todo.status todo) ->
  onUpdate env id
    (UpdateTodoDto.mk (Todo.title r1) (Todo.description r1)
       (toggledStatus (Todo.status r1))) b1 = (Ok r2, b2) ->
  Todo.id r2 = id ->
  Todo.status r2 = toggledStatus (Todo.status r1) ->
  let toggle := fromRender (fun todos => toggleTodo env todos id) in
  let w2 := snd (toggle (snd (toggle w))) in
  find (fun t => Todo.id t =? id)%Z (Store.todos (store w2)) = Some r2 /\
  (forall t, In t (Store.todos (store w2)) -> Todo.id t = id -> t = r2) /\
  Todo.status r2 =
    match Todo.status todo with
    | COMPLETED => COMPLETED
    | PENDING | IN_PROGRESS | CANCELLED => PENDING
    end /\
  (Todo.status r2 = Todo.status todo <->
   Todo.status todo = PENDING \/ Todo.status todo = COMPLETED).
Proof.
  intros Hf U1 I1 S1 U2 I2 S2 toggle w2. subst toggle w2.
  rewrite (toggleTodo_resolved env w id todo r1 b1 Hf U1). cbn [snd].
  set (w1 := {| store := _ |}).
  assert (Hf1 : find (fun t => Todo.id t =? id)%Z (Store.todos (store w1))
                = Some r1).
  { cbn. now apply find_replaced with (todo := todo). }
  rewrite (toggleTodo_resolved env w1 id r1 r2 b2 Hf1 U2). cbn [snd store Store.todos].
  split; [|split; [|split]].
  - now apply find_replaced with (todo := r1).
  - intros t Hin Ht. exact (in_replaced id r2 t _ Hin Ht I2).
  - rewrite S2, S1. destruct (Todo.status todo); reflexivity.
  - rewrite S2, S1. destruct (Todo.status todo); cbn; split; intro H;
      try discriminate H; try (destruct H as [H|H]; discriminate H); auto.
Qed.

Lemma toggleTodo_twice_witness :
  let w := worldOf [mkTodo 4 "milk" PENDING; mkTodo 5 "report" COMPLETED] in
  let toggle := fromRender (fun todos => toggleTodo echoEnv todos 5) in
  find (fun t => Todo.id t =? 5)%Z (Store.todos (store (snd (toggle (snd (toggle w))))))
  = Some (mkTodo 5 "report" COMPLETED).
Proof.
  intros w toggle.
  exact (proj1 (toggleTodo_twice echoEnv w 5
                  (mkTodo 5 "report" COMPLETED) (mkTodo 5 "report" PENDING)
                  (mkTodo 5 "report" COMPLETED) tt tt
                  eq_refl eq_refl eq_refl eq_refl eq_refl eq_refl eq_refl)).
Defined.

(** C3, as stated, fails: a task IN_PROGRESS is COMPLETED after one
    successful toggle and PENDING after the second, although the backend
    answered both updates with the status it was sent. *)
Lemma toggleTodo_twice_counterexample :
  let w := worldOf [mkTodo 5 "report" IN_PROGRESS] in
  let toggle := fromRender (fun todos => toggleTodo echoEnv todos 5) in
  let w2 := snd (toggle (snd (toggle w))) in
  requests (trace w2) =
    [ReqUpdate 5 (UpdateTodoDto.mk (lit "report") (lit "-") COMPLETED);
     ReqUpdate 5 (UpdateTodoDto.mk (lit "report") (lit "-") PENDING)] /\
  Store.todos (store w2) = [mkTodo 5 "report" PENDING] /\
  ~ (forall t0 t2,
        In t0 (Store.todos (store w)) -> In t2 (Store.todos (store w2)) ->
        Todo.id t0 = Todo.id t2 -> Todo.status t2 = Todo.status t0).
Proof.
  cbv zeta. split; [reflexivity|]. split; [reflexivity|].
  intro H.
  specialize (H (mkTodo 5 "report" IN_PROGRESS) (mkTodo 5 "report" PENDING)).
  cbn in H. discriminate H; auto.
Qed.

(** ** [deleteMultipleTodos] and [deleteAllCompleted] *)

Section RunsOfDelete.
Context {B : Type} (env : Environment B).

Lemma requests_deleteEvents (ids : list Z) :
  requests (deleteEvents ids) = map ReqDelete ids.
Proof.
  induction ids as [|id ids IH]; simpl; [reflexivity|]. now rewrite IH.
Qed.

Lemma deleteTodo_run (id : Z) (w : World B) :
  todosApi.deleteTodo env id w =
  (fst (onDelete env id (backend w)),
   {| store := store w; timers := timers w;
      trace := trace w ++ [EvRequest (ReqDelete id)];
      backend := snd (onDelete env id (backend w)) |}).
Proof.
  unfold todosApi.deleteTodo. run_js.
  destruct (onDelete env id (backend w)) as [[u|e] b1]; reflexivity.
Qed.

(** Every request is sent, whatever the answers. *)
Lemma mapAsync_deleteTodo (ids : list Z) (w : World B) :
  exists ps b',
    todosApi.mapAsync (todosApi.deleteTodo env) ids w =
    (Ok ps, {| store := store w; timers := timers w;
               trace := trace w ++ deleteEvents ids; backend := b' |}).
Proof.
  revert w. induction ids as [|id ids IH]; intro w.
  - exists [], (backend w). cbn. unfold ret. rewrite app_nil_r.
    destruct w; reflexivity.
  - cbn [todosApi.mapAsync].
    unfold bind, todosApi.promise, ret. rewrite deleteTodo_run.
    set (w1 := {| store := store w |}).
    destruct (IH w1) as (ps & b' & H). rewrite H.
    exists (fst (onDelete env id (backend w)) :: ps), b'.
    cbn. rewrite <- app_assoc. reflexivity.
Qed.

Lemma Promise_all_world {A} (ps : list (Result A)) (w : World B) :
  snd (todosApi.Promise_all ps w) = w.
Proof.
  induction ps as [|[a|e] ps IH]; cbn; try reflexivity.
  unfold bind, ret. destruct (todosApi.Promise_all ps w) as [[l|e] w'];
    cbn in *; congruence.
Qed.

Lemma deleteMultipleTodos_effect (ids : list Z) (w : World B) :
  exists r b',
    todosApi.deleteMultipleTodos env ids w =
    (r, {| store := store w; timers := timers w;
           trace := trace w ++ deleteEvents ids; backend := b' |}).
Proof.
  unfold todosApi.deleteMultipleTodos.
  destruct (mapAsync_deleteTodo ids w) as (ps & b' & H).
  unfold bind at 1. rewrite H.
  set (w1 := {| store := store w |}).
  pose proof (Promise_all_world ps w1) as Hw.
  unfold bind, ret.
  destruct (todosApi.Promise_all ps w1) as [[l|e] w2]; cbn in Hw; subst w2.
  - exists (Ok tt), b'. reflexivity.
  - exists (Rejected e), b'. reflexivity.
Qed.

Lemma deleteAllCompleted_none (w : World B) :
  List.filter isCompleted (Store.todos (store w)) = [] ->
  fromRender (deleteAllCompleted env) w = (Ok tt, w).
Proof.
  intro H. unfold fromRender, deleteAllCompleted.
  fold isCompleted. rewrite H. reflexivity.
Qed.
End RunsOfDelete.

Lemma length_eqb_0_false {A} (l : list A) :
  l <> [] -> (List.length l =? 0)%nat = false.
Proof. destruct l; [congruence|reflexivity]. Qed.

Arguments msgConfirmCompleted : simpl never.
Arguments lit : simpl never.

Section RunsOfDeleteAllCompleted.
Context {B : Type} (env : Environment B).

Lemma window_confirm_run (message : jsstring) (w : World B) :
  window_confirm env message w =
  (Ok (fst (onConfirm env message (backend w))),
   {| store := store w; timers := timers w;
      trace := trace w ++ [EvConfirm message];
      backend := snd (onConfirm env message (backend w)) |}).
Proof.
  run_js. destruct (onConfirm env message (backend w)); reflexivity.
Qed.

Lemma setLoading_run (b : bool) (w : World B) :
  setLoading b w =
  (Ok tt,
   {| store := {| Store.todos := Store.todos (store w);
                  Store.loading := b;
                  Store.error := Store.error (store w);
                  Store.initialLoading := Store.initialLoading (store w) |};
      timers := timers w;
      trace := trace w ++ [EvSetLoading b];
      backend := backend w |}).
Proof. reflexivity. Qed.

Lemma deleteAllCompleted_declined (w : World B) b1 :
  List.filter isCompleted (Store.todos (store w)) <> [] ->
  onConfirm env
    (msgConfirmCompleted
       (List.length (List.filter isCompleted (Store.todos (store w)))))
    (backend w) = (false, b1) ->
  fromRender (deleteAllCompleted env) w =
  (Ok tt,
   {| store := store w; timers := timers w;
      trace := trace w ++
               [EvConfirm
                  (msgConfirmCompleted
                     (List.length
                        (List.filter isCompleted (Store.todos (store w)))))];
      backend := b1 |}).
Proof.
  intros Hne Hc. unfold fromRender, deleteAllCompleted. fold isCompleted.
  rewrite (length_eqb_0_false _ Hne).
  unfold bind. rewrite window_confirm_run, Hc. reflexivity.
Qed.

Lemma deleteAllCompleted_confirmed (w : World B) b1 :
  let todos := Store.todos (store w) in
  let message :=
    msgConfirmCompleted (List.length (List.filter isCompleted todos)) in
  List.filter isCompleted todos <> [] ->
  onConfirm env message (backend w) = (true, b1) ->
  let w1 :=
    {| store := {| Store.todos := todos; Store.loading := true;
                   Store.error := Store.error (store w);
                   Store.initialLoading := Store.initialLoading (store w) |};
       timers := timers w;
       trace := trace w ++ [EvConfirm message; EvSetLoading true];
       backend := b1 |} in
  exists r b2,
    todosApi.deleteMultipleTodos env
      (map Todo.id (List.filter isCompleted todos)) w1 =
    (r, {| store := store w1; timers := timers w1;
           trace := trace w1 ++
                    deleteEvents (map Todo.id (List.filter isCompleted todos));
           backend := b2 |}) /\
    fromRender (deleteAllCompleted env) w =
    (Ok tt,
     match r with
     | Ok _ =>
         let remaining :=
           List.filter (fun todo => negb (isCompleted todo)) todos in
         {| store := {| Store.todos := remaining;
                        Store.loading := false;
                        Store.error := Store.error (store w);
                        Store.initialLoading :=
                          Store.initialLoading (store w) |};
            timers := timers w;
            trace := trace w1 ++
                     deleteEvents
                       (map Todo.id (List.filter isCompleted todos)) ++
                     [EvSetTodos remaining; EvSetLoading false];
            backend := b2 |}
     | Rejected e =>
         let msg :=
           errorMessage e (lit "Error al eliminar tareas completadas") in
         {| store := {| Store.todos := todos;
                        Store.loading := false;
                        Store.error := msg;
                        Store.initialLoading :=
                          Store.initialLoading (store w) |};
            timers := timers w ++ [(ClearError, 5000%Z)];
            trace := trace w1 ++
                     deleteEvents
                       (map Todo.id (List.filter isCompleted todos)) ++
                     [EvSetError msg; EvSetTimeout ClearError 5000;
                      EvSetLoading false];
            backend := b2 |}
     end).
Proof.
  intros todos message Hne Hc w1.
  destruct (deleteMultipleTodos_effect env
              (map Todo.id (List.filter isCompleted todos)) w1)
    as (r & b2 & Hd).
  exists r, b2. split; [exact Hd|].
  unfold fromRender, deleteAllCompleted. fold isCompleted. fold todos.
  rewrite (length_eqb_0_false _ Hne). fold message.
  unfold bind at 1. rewrite window_confirm_run, Hc. cbn [fst snd negb].
  unfold tryFinally, tryCatch, bind at 1.
  rewrite setLoading_run. cbn [store timers trace backend Store.todos
    Store.loading Store.error Store.initialLoading].
  unfold bind at 1.
  match goal with
  | |- context [todosApi.deleteMultipleTodos env ?i ?x] =>
      replace (todosApi.deleteMultipleTodos env i x)
        with (todosApi.deleteMultipleTodos env i w1)
  end.
  2:{ unfold w1. repeat rewrite <- app_assoc. reflexivity. }
  rewrite Hd. destruct r as [u|e].
  - run_js. repeat rewrite <- app_assoc. reflexivity.
  - run_js. repeat rewrite <- app_assoc. reflexivity.
Qed.
End RunsOfDeleteAllCompleted.

(** [Promise.all] resolves exactly when every promise resolved. *)
Lemma Promise_all_resolves {B A} (ps : list (Result A)) (w : World B)
    (l : list A) :
  fst (todosApi.Promise_all ps w) = Ok l <-> ps = map (@Ok A) l.
Proof.
  revert l. induction ps as [|[a|e] ps IH]; intro l; cbn.
  - unfold ret. cbn. split; intro H.
    + injection H as <-. reflexivity.
    + destruct l; [reflexivity|discriminate H].
  - unfold bind, ret.
    destruct (todosApi.Promise_all ps w) as [[l0|e] w'] eqn:E; cbn in *.
    + split; intro H.
      * injection H as <-. cbn. f_equal. now apply IH.
      * destruct l as [|a' l']; [discriminate H|]. cbn in H.
        injection H as -> H. apply IH in H. congruence.
    + split; intro H; [discriminate H|].
      destruct l as [|a' l']; [discriminate H|]. cbn in H.
      injection H as -> H. apply IH in H. discriminate H.
  - unfold throw. cbn. split; intro H; [discriminate H|].
    destruct l; discriminate H.
Qed.

(** C1, as amended: [deleteAllCompleted] does nothing at all when no task is
    COMPLETED, and sends nothing when the user declines the confirmation.
    Otherwise it sends one deletion per COMPLETED task, in the order of the
    list, and ends with [loading] cleared; the COMPLETED tasks leave the list
    only if [deleteMultipleTodos] resolved, and when it rejected the list is
    the one before the call and the error message is shown. *)
Theorem deleteAllCompleted_spec {B} (env : Environment B) (w : World B) :
  let todos := Store.todos (store w) in
  let completedTodos := List.filter isCompleted todos in
  let ids := map Todo.id completedTodos in
  let message := msgConfirmCompleted (List.length completedTodos) in
  let out := fromRender (deleteAllCompleted env) w in
  (completedTodos = [] -> out = (Ok tt, w))
  /\
  (completedTodos <> [] ->
   forall answer b1,
     onConfirm env message (backend w) = (answer, b1) ->
     (answer = false ->
      requests (trace (snd out)) = requests (trace w) /\
      store (snd out) = store w)
     /\
     (answer = true ->
      let w1 :=
        {| store := {| Store.todos := todos; Store.loading := true;
                       Store.error := Store.error (store w);
                       Store.initialLoading :=
                         Store.initialLoading (store w) |};
           timers := timers w;
           trace := trace w ++ [EvConfirm message; EvSetLoading true];
           backend := b1 |} in
      let sent := todosApi.deleteMultipleTodos env ids w1 in
      requests (trace (snd out)) = requests (trace w) ++ map ReqDelete ids /\
      Store.loading (store (snd out)) = false /\
      (fst sent = Ok tt ->
       Store.todos (store (snd out)) =
         List.filter (fun todo => negb (isCompleted todo)) todos /\
       forall t, In t (Store.todos (store (snd out))) ->
                 Todo.status t <> COMPLETED) /\
      (forall e,
          fst sent = Rejected e ->
          Store.todos (store (snd out)) = todos /\
          Store.error (store (snd out)) =
            errorMessage e (lit "Error al eliminar tareas completadas")))).
Proof.
  intros todos completedTodos ids message out. subst out. split.
  - intro H. now apply deleteAllCompleted_none.
  - intros Hne answer b1 Hc. split; intro Ha; subst answer.
    + rewrite (deleteAllCompleted_declined env w b1 Hne Hc). cbn [snd trace store].
      rewrite requests_app. cbn. rewrite app_nil_r. split; reflexivity.
    + intros w1 sent.
      destruct (deleteAllCompleted_confirmed env w b1 Hne Hc)
        as (r & b2 & Hd & Hrun).
      fold todos completedTodos ids message in Hd, Hrun. fold w1 in Hd, Hrun.
      subst sent. rewrite Hd, Hrun. cbn [fst snd].
      destruct r as [u|e0]; cbn [store trace Store.todos Store.loading Store.error].
      * split; [|split; [reflexivity|split]].
        -- unfold w1. cbn [trace]. repeat rewrite requests_app.
           rewrite requests_deleteEvents. cbn. now rewrite !app_nil_r.
        -- intros _. split; [reflexivity|].
           intros t Hin. apply filter_In in Hin. destruct Hin as [_ Hn].
           unfold isCompleted in Hn. intro Hs. rewrite Hs in Hn. discriminate Hn.
        -- intros e He. discriminate He.
      * split; [|split; [reflexivity|split]].
        -- unfold w1. cbn [trace]. repeat rewrite requests_app.
           rewrite requests_deleteEvents. cbn. now rewrite !app_nil_r.
        -- intro He. discriminate He.
        -- intros e He. injection He as <-. split; reflexivity.
Qed.

Lemma deleteAllCompleted_spec_witness :
  let w := worldOf [mkTodo 1 "milk" COMPLETED; mkTodo 2 "bread" PENDING;
                    mkTodo 3 "eggs" COMPLETED] in
  let out := fromRender (deleteAllCompleted echoEnv) w in
  requests (trace (snd out)) = [ReqDelete 1; ReqDelete 3] /\
  Store.todos (store (snd out)) = [mkTodo 2 "bread" PENDING] /\
  store (snd (fromRender (deleteAllCompleted decliningEnv) w)) = store w /\
  Store.todos (store (snd (fromRender (deleteAllCompleted failingEnv) w)))
    = Store.todos (store w).
Proof.
  intros w out.
  assert (Hne : List.filter isCompleted (Store.todos (store w)) <> [])
    by discriminate.
  destruct (proj2 (deleteAllCompleted_spec echoEnv w) Hne true tt eq_refl)
    as [_ H]. destruct (H eq_refl) as (H1 & _ & H2 & _).
  destruct (proj2 (deleteAllCompleted_spec decliningEnv w) Hne false tt eq_refl)
    as [H3 _]. destruct (H3 eq_refl) as [_ H4].
  destruct (proj2 (deleteAllCompleted_spec failingEnv w) Hne true tt eq_refl)
    as [_ H5]. destruct (H5 eq_refl) as (_ & _ & _ & H6).
  split; [exact H1|]. split; [exact (proj1 (H2 eq_refl))|].
  split; [exact H4|]. exact (proj1 (H6 http500 eq_refl)).
Defined.

(** C1, as stated, fails: with one COMPLETED task, a user who confirms and a
    backend that rejects the deletion, the deletion is requested, the error
    is shown, and the COMPLETED task is still in the list. *)
Lemma deleteAllCompleted_counterexample :
  let w := worldOf [mkTodo 1 "milk" COMPLETED; mkTodo 2 "bread" PENDING] in
  let out := fromRender (deleteAllCompleted failingEnv) w in
  requests (trace (snd out)) = [ReqDelete 1] /\
  fst (todosApi.deleteMultipleTodos failingEnv [1%Z] w) = Rejected http500 /\
  Store.todos (store (snd out)) =
    [mkTodo 1 "milk" COMPLETED; mkTodo 2 "bread" PENDING] /\
  ~ (forall t, In t (Store.todos (store (snd out))) ->
               Todo.status t <> COMPLETED).
Proof.
  cbv zeta. split; [reflexivity|]. split; [reflexivity|].
  split; [reflexivity|].
  intro H. apply (H (mkTodo 1 "milk" COMPLETED)).
  - left. reflexivity.
  - reflexivity.
Qed.

(** ** [getFilteredTodos] *)

Lemma status_eqb_eq (a b : TodoStatus) : status_eqb a b = true <-> a = b.
Proof. destruct a, b; simpl; split; congruence. Qed.

(** C6: [getFilteredTodos] returns, for ['active'], exactly the tasks of the
    list that are PENDING or IN_PROGRESS, for ['completed'] exactly the
    COMPLETED ones, for ['cancelled'] exactly the CANCELLED ones, and for
    ['all'] the list itself; no task is in two of the first three results,
    and together they hold every task of the list, each as many times as the
    list does.  The function only reads the list: it is a function of the
    list and the filter, outside the monad of effects. *)
Theorem getFilteredTodos_spec (todos : list Todo.t) :
  (forall t, In t (getFilteredTodos todos active) <->
             In t todos /\
             (Todo.status t = PENDING \/ Todo.status t = IN_PROGRESS)) /\
  (forall t, In t (getFilteredTodos todos completed) <->
             In t todos /\ Todo.status t = COMPLETED) /\
  (forall t, In t (getFilteredTodos todos cancelled) <->
             In t todos /\ Todo.status t = CANCELLED) /\
  getFilteredTodos todos all = todos /\
  (forall t, ~ (In t (getFilteredTodos todos active) /\
                In t (getFilteredTodos todos completed))) /\
  (forall t, ~ (In t (getFilteredTodos todos active) /\
                In t (getFilteredTodos todos cancelled))) /\
  (forall t, ~ (In t (getFilteredTodos todos completed) /\
                In t (getFilteredTodos todos cancelled))) /\
  Permutation todos
    (getFilteredTodos todos active ++ getFilteredTodos todos completed ++
     getFilteredTodos todos cancelled).
Proof.
  assert (Ha : forall t, In t (getFilteredTodos todos active) <->
                         In t todos /\
                         (Todo.status t = PENDING \/
                          Todo.status t = IN_PROGRESS)).
  { intro t. unfold getFilteredTodos. rewrite filter_In, orb_true_iff.
    now rewrite !status_eqb_eq. }
  assert (Hc : forall t, In t (getFilteredTodos todos completed) <->
                         In t todos /\ Todo.status t = COMPLETED).
  { intro t. unfold getFilteredTodos. now rewrite filter_In, status_eqb_eq. }
  assert (Hx : forall t, In t (getFilteredTodos todos cancelled) <->
                         In t todos /\ Todo.status t = CANCELLED).
  { intro t. unfold getFilteredTodos. now rewrite filter_In, status_eqb_eq. }
  repeat match goal with |- _ /\ _ => split end; try assumption.
  - reflexivity.
  - intros t [H1 H2]. apply Ha in H1. apply Hc in H2.
    destruct H1 as [_ [H1|H1]], H2 as [_ H2]; congruence.
  - intros t [H1 H2]. apply Ha in H1. apply Hx in H2.
    destruct H1 as [_ [H1|H1]], H2 as [_ H2]; congruence.
  - intros t [H1 H2]. apply Hc in H1. apply Hx in H2.
    destruct H1 as [_ H1], H2 as [_ H2]; congruence.
  - clear Ha Hc Hx. unfold getFilteredTodos.
    induction todos as [|t l IH]; cbn [List.filter]; [constructor|].
    destruct (Todo.status t); cbn [status_eqb orb].
    + cbn [app]. now apply perm_skip.
    + cbn [app]. now apply perm_skip.
    + now apply Permutation_cons_app.
    + rewrite app_assoc. apply Permutation_cons_app.
      now rewrite <- app_assoc.
Qed.

Example getFilteredTodos_example :
  let todos := [mkTodo 1 "a" PENDING; mkTodo 2 "b" COMPLETED;
                mkTodo 3 "c" IN_PROGRESS; mkTodo 4 "d" CANCELLED] in
  map Todo.id (getFilteredTodos todos active) = [1; 3]%Z /\
  map Todo.id (getFilteredTodos todos completed) = [2]%Z /\
  map Todo.id (getFilteredTodos todos cancelled) = [4]%Z /\
  map Todo.id (getFilteredTodos todos all) = [1; 2; 3; 4]%Z.
Proof. repeat split. Qed.

(** ** [AuthProvider] *)

(** C9: whenever the provider is not both initialized and authenticated it
    renders a blocking message (the initializing one until the handshake has
    settled, the unauthenticated one after) and none of its children; the
    children are rendered exactly when it is initialized and authenticated. *)
Theorem AuthProvider_gate {U C : Type} (tokenParsed : option U)
    (st : Auth.State) (children : C) :
  let view := Auth.AuthProvider tokenParsed st children in
  (Auth.initialized st = false ->
   view = Auth.BlockingMessage Auth.msgInitializing) /\
  (Auth.initialized st = true -> Auth.authenticated st = false ->
   view = Auth.BlockingMessage Auth.msgUnauthenticated) /\
  (Auth.initialized st && Auth.authenticated st = false ->
   Auth.shownChildren view = None) /\
  (Auth.shownChildren view = Some children <->
   Auth.initialized st = true /\ Auth.authenticated st = true).
Proof.
  intro view. subst view. unfold Auth.AuthProvider.
  destruct (Auth.initialized st), (Auth.authenticated st); cbn;
    repeat split; intros; try congruence; try tauto;
    match goal with H : _ /\ _ |- _ => destruct H; congruence end.
Qed.

Lemma AuthProvider_gate_witness :
  let denied := Auth.afterInit true Auth.InitRejected Auth.initialState in
  let granted :=
    Auth.afterInit true (Auth.InitResolved true (Some (lit "jwt")))
      Auth.initialState in
  Auth.shownChildren
    (Auth.AuthProvider (@None unit) Auth.initialState 42%nat) = None /\
  Auth.AuthProvider (@None unit) denied 42%nat =
    Auth.BlockingMessage Auth.msgUnauthenticated /\
  Auth.shownChildren (Auth.AuthProvider (@None unit) granted 42%nat) = Some 42%nat.
Proof.
  intros denied granted.
  destruct (AuthProvider_gate (@None unit) Auth.initialState 42%nat)
    as (_ & _ & H1 & _).
  destruct (AuthProvider_gate (@None unit) denied 42%nat) as (_ & H2 & _).
  destruct (AuthProvider_gate (@None unit) granted 42%nat) as (_ & _ & _ & H3).
  split; [exact (H1 eq_refl)|]. split; [exact (H2 eq_refl eq_refl)|].
  apply H3. split; reflexivity.
Defined.

(* ================================================================== *)
(** * Further properties of the hook *)
(* ================================================================== *)

Arguments msgConfirmOne : simpl never.

Section RunsOfChangeStatus.
Context {B : Type} (env : Environment B).

Lemma changeStatus_absent (w : World B) id s :
  find (fun t => Todo.id t =? id)%Z (Store.todos (store w)) = None ->
  fromRender (fun todos => changeStatus env todos id s) w = (Ok tt, w).
Proof.
  intro H. unfold fromRender, changeStatus, console_log, bind at 1, ret at 1.
  rewrite H. reflexivity.
Qed.

Lemma changeStatus_resolved (w : World B) id s todo r b' :
  find (fun t => Todo.id t =? id)%Z (Store.todos (store w)) = Some todo ->
  let dto := UpdateTodoDto.mk (Todo.title todo) (Todo.description todo) s in
  onUpdate env id dto (backend w) = (Ok r, b') ->
  let todos' := map (fun t => if (Todo.id t =? id)%Z then r else t)
                    (Store.todos (store w)) in
  fromRender (fun todos => changeStatus env todos id s) w =
  (Ok tt,
   {| store := {| Store.todos := todos';
                  Store.loading := Store.loading (store w);
                  Store.error := Store.error (store w);
                  Store.initialLoading := Store.initialLoading (store w) |};
      timers := timers w;
      trace := trace w ++ [EvRequest (ReqUpdate id dto); EvSetTodos todos'];
      backend := b' |}).
Proof.
  intros Hf dto H todos'.
  unfold fromRender, changeStatus, console_log, bind at 1, ret at 1.
  rewrite Hf. run_js. fold dto. rewrite H. cbn.
  repeat rewrite <- app_assoc. reflexivity.
Qed.

Lemma changeStatus_rejected (w : World B) id s todo e b' :
  find (fun t => Todo.id t =? id)%Z (Store.todos (store w)) = Some todo ->
  let dto := UpdateTodoDto.mk (Todo.title todo) (Todo.description todo) s in
  onUpdate env id dto (backend w) = (Rejected e, b') ->
  let msg := errorMessage e (lit "Error al cambiar el estado") in
  fromRender (fun todos => changeStatus env todos id s) w =
  (Ok tt,
   {| store := {| Store.todos := Store.todos (store w);
                  Store.loading := Store.loading (store w);
                  Store.error := msg;
                  Store.initialLoading := Store.initialLoading (store w) |};
      timers := timers w ++ [(ClearError, 5000%Z)];
      trace := trace w ++ [EvRequest (ReqUpdate id dto);
                           EvSetError msg; EvSetTimeout ClearError 5000];
      backend := b' |}).
Proof.
  intros Hf dto H msg.
  unfold fromRender, changeStatus, console_log, bind at 1, ret at 1.
  rewrite Hf. run_js. fold dto. rewrite H. cbn.
  repeat rewrite <- app_assoc. reflexivity.
Qed.
End RunsOfChangeStatus.

Section RunsOfDeleteTodoById.
Context {B : Type} (env : Environment B).

Lemma deleteTodoById_declined (w : World B) id b1 :
  onConfirm env msgConfirmOne (backend w) = (false, b1) ->
  fromRender (fun todos => deleteTodoById env todos id) w =
  (Ok tt,
   {| store := store w; timers := timers w;
      trace := trace w ++ [EvConfirm msgConfirmOne];
      backend := b1 |}).
Proof.
  intro Hc. unfold fromRender, deleteTodoById, bind.
  rewrite window_confirm_run, Hc. reflexivity.
Qed.

Lemma deleteTodoById_resolved (w : World B) id b1 u b2 :
  onConfirm env msgConfirmOne (backend w) = (true, b1) ->
  onDelete env id b1 = (Ok u, b2) ->
  let todos' := List.filter (fun todo => negb (Todo.id todo =? id)%Z)
                            (Store.todos (store w)) in
  fromRender (fun todos => deleteTodoById env todos id) w =
  (Ok tt,
   {| store := {| Store.todos := todos';
                  Store.loading := Store.loading (store w);
                  Store.error := Store.error (store w);
                  Store.initialLoading := Store.initialLoading (store w) |};
      timers := timers w;
      trace := trace w ++ [EvConfirm msgConfirmOne; EvRequest (ReqDelete id);
                           EvSetTodos todos'];
      backend := b2 |}).
Proof.
  intros Hc Hd todos'. unfold fromRender, deleteTodoById, bind at 1.
  rewrite window_confirm_run, Hc. cbn [fst snd negb].
  unfold tryCatch, bind at 1. rewrite deleteTodo_run.
  cbn [backend]. rewrite Hd. run_js.
  repeat rewrite <- app_assoc. reflexivity.
Qed.

Lemma deleteTodoById_rejected (w : World B) id b1 e b2 :
  onConfirm env msgConfirmOne (backend w) = (true, b1) ->
  onDelete env id b1 = (Rejected e, b2) ->
  let msg := errorMessage e (lit "Error al eliminar la tarea") in
  fromRender (fun todos => deleteTodoById env todos id) w =
  (Ok tt,
   {| store := {| Store.todos := Store.todos (store w);
                  Store.loading := Store.loading (store w);
                  Store.error := msg;
                  Store.initialLoading := Store.initialLoading (store w) |};
      timers := timers w ++ [(ClearError, 5000%Z)];
      trace := trace w ++ [EvConfirm msgConfirmOne; EvRequest (ReqDelete id);
                           EvSetError msg; EvSetTimeout ClearError 5000];
      backend := b2 |}).
Proof.
  intros Hc Hd msg. unfold fromRender, deleteTodoById, bind at 1.
  rewrite window_confirm_run, Hc. cbn [fst snd negb].
  unfold tryCatch, bind at 1. rewrite deleteTodo_run.
  cbn [backend]. rewrite Hd. run_js.
  repeat rewrite <- app_assoc. reflexivity.
Qed.
End RunsOfDeleteTodoById.

(** ** [changeStatus] *)

(** X1: [changeStatus(id, newStatus)] sends nothing and leaves the store as
    it is when no task has the id.  For a task of the list it always sends
    one update with the task's title and description and the status asked
    for, whatever that status is (the task's own status included); when the
    update is rejected the list is unchanged and the error is shown. *)
Theorem changeStatus_sends {B} (env : Environment B) (w : World B) (id : Z)
    (s : TodoStatus) :
  let out := fromRender (fun todos => changeStatus env todos id s) w in
  (~ In id (map Todo.id (Store.todos (store w))) ->
   requests (trace (snd out)) = requests (trace w) /\
   store (snd out) = store w)
  /\
  (forall todo,
      find (fun t => Todo.id t =? id)%Z (Store.todos (store w)) = Some todo ->
      let dto := UpdateTodoDto.mk (Todo.title todo) (Todo.description todo) s in
      requests (trace (snd out)) = requests (trace w) ++ [ReqUpdate id dto] /\
      forall e b',
        onUpdate env id dto (backend w) = (Rejected e, b') ->
        Store.todos (store (snd out)) = Store.todos (store w) /\
        Store.error (store (snd out)) =
          errorMessage e (lit "Error al cambiar el estado")).
Proof.
  intro out. subst out. split.
  - intro H. apply find_none_iff in H.
    rewrite (changeStatus_absent env w id s H). split; reflexivity.
  - intros todo Hf dto.
    destruct (onUpdate env id dto (backend w)) as [[r|e0] b0] eqn:E.
    + rewrite (changeStatus_resolved env w id s todo r b0 Hf E). cbn.
      rewrite requests_app. split; [reflexivity|].
      intros e b' H. discriminate H.
    + rewrite (changeStatus_rejected env w id s todo e0 b0 Hf E). cbn.
      rewrite requests_app. split; [reflexivity|].
      intros e b' H. injection H as <- _. split; reflexivity.
Qed.

Lemma changeStatus_sends_witness :
  let w := worldOf [mkTodo 4 "milk" PENDING; mkTodo 5 "report" COMPLETED] in
  requests (trace (snd (fromRender (fun todos => changeStatus echoEnv todos 9 CANCELLED) w)))
    = [] /\
  requests (trace (snd (fromRender (fun todos => changeStatus echoEnv todos 5 COMPLETED) w)))
    = [ReqUpdate 5 (UpdateTodoDto.mk (lit "report") (lit "-") COMPLETED)] /\
  Store.todos (store (snd (fromRender (fun todos => changeStatus failingEnv todos 5 CANCELLED) w)))
    = Store.todos (store w).
Proof.
  intro w.
  assert (Habs : ~ In 9%Z (map Todo.id (Store.todos (store w)))).
  { cbn. intros [H|[H|[]]]; discriminate H. }
  destruct (proj1 (changeStatus_sends echoEnv w 9 CANCELLED) Habs) as [H1 _].
  destruct (proj2 (changeStatus_sends echoEnv w 5 COMPLETED)
              (mkTodo 5 "report" COMPLETED) eq_refl) as [H2 _].
  destruct (proj2 (changeStatus_sends failingEnv w 5 CANCELLED)
              (mkTodo 5 "report" COMPLETED) eq_refl) as [_ H3].
  split; [exact H1|]. split; [exact H2|].
  exact (proj1 (H3 http500 tt eq_refl)).
Defined.

(** X2: when the update of [changeStatus(id, newStatus)] succeeds and the
    response carries the id and the status that were sent, the task of that
    id is the response: it is listed by the filter of its new status and by
    no other one of the three, and the tasks with other ids are the same as
    before. *)
Theorem changeStatus_moves_task {B} (env : Environment B) (w : World B)
    (id : Z) (s : TodoStatus) (todo r : Todo.t) (b' : B) :
  find (fun t => Todo.id t =? id)%Z (Store.todos (store w)) = Some todo ->
  onUpdate env id
    (UpdateTodoDto.mk (Todo.title todo) (Todo.description todo) s)
    (backend w) = (Ok r, b') ->
  Todo.id r = id ->
  Todo.status r = s ->
  let todos' :=
    Store.todos
      (store (snd (fromRender (fun todos => changeStatus env todos id s) w))) in
  find (fun t => Todo.id t =? id)%Z todos' = Some r /\
  (forall t, In t todos' -> Todo.id t = id -> t = r) /\
  (forall t, Todo.id t <> id ->
             (In t todos' <-> In t (Store.todos (store w)))) /\
  (In r (getFilteredTodos todos' active) <-> s = PENDING \/ s = IN_PROGRESS) /\
  (In r (getFilteredTodos todos' completed) <-> s = COMPLETED) /\
  (In r (getFilteredTodos todos' cancelled) <-> s = CANCELLED).
Proof.
  intros Hf H Hid Hs todos'. subst todos'.
  rewrite (changeStatus_resolved env w id s todo r b' Hf H). cbn [snd store Store.todos].
  set (todos' := map _ _).
  assert (Hfind : find (fun t => Todo.id t =? id)%Z todos' = Some r)
    by now apply find_replaced with (todo := todo).
  assert (Hin : In r todos') by (apply find_some in Hfind; tauto).
  split; [exact Hfind|]. split; [|split; [|split; [|split]]].
  - intros t Ht Hi. exact (in_replaced id r t _ Ht Hi Hid).
  - intros t Hne. unfold todos'. rewrite in_map_iff. split.
    + intros (t0 & E & Hin0).
      destruct (Z.eqb_spec (Todo.id t0) id) as [E0|E0]; congruence.
    + intro Hin0. exists t. split; [|exact Hin0].
      apply Z.eqb_neq in Hne. now rewrite Hne.
  - unfold getFilteredTodos. rewrite filter_In, orb_true_iff, !status_eqb_eq, Hs.
    tauto.
  - unfold getFilteredTodos. rewrite filter_In, status_eqb_eq, Hs. tauto.
  - unfold getFilteredTodos. rewrite filter_In, status_eqb_eq, Hs. tauto.
Qed.

Lemma changeStatus_moves_task_witness :
  let w := worldOf [mkTodo 4 "milk" PENDING; mkTodo 5 "report" IN_PROGRESS] in
  let todos' :=
    Store.todos
      (store (snd (fromRender
                     (fun todos => changeStatus echoEnv todos 5 CANCELLED) w))) in
  In (mkTodo 5 "report" CANCELLED) (getFilteredTodos todos' cancelled) /\
  ~ In (mkTodo 5 "report" CANCELLED) (getFilteredTodos todos' active).
Proof.
  intros w todos'.
  destruct (changeStatus_moves_task echoEnv w 5 CANCELLED
              (mkTodo 5 "report" IN_PROGRESS) (mkTodo 5 "report" CANCELLED) tt
              eq_refl eq_refl eq_refl eq_refl) as (_ & _ & _ & Ha & _ & Hx).
  split.
  - apply Hx. reflexivity.
  - intro H. apply Ha in H. destruct H as [H|H]; discriminate H.
Defined.

(** X3: on a task of the list, [toggleTodo(id)] sends the request and leaves
    the list that [changeStatus(id, s)] does for [s] the toggled status, in
    every outcome; when the update succeeds the whole store is the same. *)
Theorem toggleTodo_as_changeStatus {B} (env : Environment B) (w : World B)
    (id : Z) (todo : Todo.t) :
  find (fun t => Todo.id t =? id)%Z (Store.todos (store w)) = Some todo ->
  let toggled := fromRender (fun todos => toggleTodo env todos id) w in
  let changed :=
    fromRender
      (fun todos => changeStatus env todos id (toggledStatus (Todo.status todo)))
      w in
  requests (trace (snd toggled)) = requests (trace (snd changed)) /\
  Store.todos (store (snd toggled)) = Store.todos (store (snd changed)) /\
  backend (snd toggled) = backend (snd changed) /\
  (forall r b',
      onUpdate env id
        (UpdateTodoDto.mk (Todo.title todo) (Todo.description todo)
           (toggledStatus (Todo.status todo))) (backend w) = (Ok r, b') ->
      store (snd toggled) = store (snd changed)).
Proof.
  intros Hf toggled changed. subst toggled changed.
  destruct (onUpdate env id
              (UpdateTodoDto.mk (Todo.title todo) (Todo.description todo)
                 (toggledStatus (Todo.status todo))) (backend w))
    as [[r0|e] b0] eqn:E.
  - rewrite (toggleTodo_resolved env w id todo r0 b0 Hf E).
    rewrite (changeStatus_resolved env w id _ todo r0 b0 Hf E).
    repeat split.
  - rewrite (toggleTodo_rejected env w id todo e b0 Hf E).
    rewrite (changeStatus_rejected env w id _ todo e b0 Hf E).
    cbn. rewrite !requests_app. cbn. repeat split.
    intros r b' H. discriminate H.
Qed.

Lemma toggleTodo_as_changeStatus_witness :
  let w := worldOf [mkTodo 5 "report" CANCELLED] in
  store (snd (fromRender (fun todos => toggleTodo echoEnv todos 5) w)) =
  store (snd (fromRender (fun todos => changeStatus echoEnv todos 5 COMPLETED) w)).
Proof.
  intro w.
  destruct (toggleTodo_as_changeStatus echoEnv w 5
              (mkTodo 5 "report" CANCELLED) eq_refl) as (_ & _ & _ & H).
  exact (H (mkTodo 5 "report" COMPLETED) tt eq_refl).
Defined.

(** X4: [toggleTodo] and [changeStatus] never add or remove a task: whatever
    the backend answers, the list keeps its length and every task with
    another id stays in it. *)
Theorem update_keeps_tasks {B} (env : Environment B) (w : World B) (id : Z)
    (s : TodoStatus) :
  let after_toggle :=
    Store.todos (store (snd (fromRender (fun todos => toggleTodo env todos id) w))) in
  let after_change :=
    Store.todos
      (store (snd (fromRender (fun todos => changeStatus env todos id s) w))) in
  List.length after_toggle = List.length (Store.todos (store w)) /\
  List.length after_change = List.length (Store.todos (store w)) /\
  (forall t, In t (Store.todos (store w)) -> Todo.id t <> id ->
             In t after_toggle /\ In t after_change).
Proof.
  intros after_toggle after_change. subst after_toggle after_change.
  assert (Hkeep : forall r t, In t (Store.todos (store w)) -> Todo.id t <> id ->
            In t (map (fun t => if (Todo.id t =? id)%Z then r else t)
                      (Store.todos (store w)))).
  { intros r t Hin Hne. apply in_map_iff. exists t. split; [|exact Hin].
    apply Z.eqb_neq in Hne. now rewrite Hne. }
  destruct (find (fun t => Todo.id t =? id)%Z (Store.todos (store w)))
    as [todo|] eqn:Hf.
  - assert (Ht : List.length (Store.todos (store (snd (fromRender (fun todos => toggleTodo env todos id) w)))) = List.length (Store.todos (store w))
              /\ forall t, In t (Store.todos (store w)) -> Todo.id t <> id ->
                 In t (Store.todos (store (snd (fromRender (fun todos => toggleTodo env todos id) w))))).
    { destruct (onUpdate env id
                  (UpdateTodoDto.mk (Todo.title todo) (Todo.description todo)
                     (toggledStatus (Todo.status todo))) (backend w))
        as [[r|e] b0] eqn:E.
      - rewrite (toggleTodo_resolved env w id todo r b0 Hf E). cbn.
        rewrite length_map. split; [reflexivity|]. apply Hkeep.
      - rewrite (toggleTodo_rejected env w id todo e b0 Hf E). cbn. auto. }
    assert (Hc : List.length (Store.todos (store (snd (fromRender (fun todos => changeStatus env todos id s) w)))) = List.length (Store.todos (store w))
              /\ forall t, In t (Store.todos (store w)) -> Todo.id t <> id ->
                 In t (Store.todos (store (snd (fromRender (fun todos => changeStatus env todos id s) w))))).
    { destruct (onUpdate env id
                  (UpdateTodoDto.mk (Todo.title todo) (Todo.description todo) s)
                  (backend w)) as [[r|e] b0] eqn:E.
      - rewrite (changeStatus_resolved env w id s todo r b0 Hf E). cbn.
        rewrite length_map. split; [reflexivity|]. apply Hkeep.
      - rewrite (changeStatus_rejected env w id s todo e b0 Hf E). cbn. auto. }
    destruct Ht as [Ht1 Ht2], Hc as [Hc1 Hc2]. auto.
  - rewrite (toggleTodo_absent env w id Hf), (changeStatus_absent env w id s Hf).
    cbn. auto.
Qed.

(** ** [deleteTodoById] *)

Lemma in_filter_other_id (id : Z) (l : list Todo.t) (t : Todo.t) :
  In t (List.filter (fun todo => negb (Todo.id todo =? id)%Z) l) <->
  In t l /\ Todo.id t <> id.
Proof.
  rewrite filter_In, negb_true_iff, Z.eqb_neq. tauto.
Qed.

(** X5: [deleteTodoById(id)] sends nothing and keeps the store when the user
    declines.  When the user confirms it sends one deletion for the id,
    whether or not a task of the list has it; if the deletion succeeds the
    list loses exactly the tasks with that id, and if it is rejected the
    list is unchanged and the error is shown. *)
Theorem deleteTodoById_spec {B} (env : Environment B) (w : World B) (id : Z)
    (answer : bool) (b1 : B) :
  onConfirm env msgConfirmOne (backend w) = (answer, b1) ->
  let out := fromRender (fun todos => deleteTodoById env todos id) w in
  (answer = false ->
   requests (trace (snd out)) = requests (trace w) /\
   store (snd out) = store w)
  /\
  (answer = true ->
   requests (trace (snd out)) = requests (trace w) ++ [ReqDelete id] /\
   (forall u b2,
       onDelete env id b1 = (Ok u, b2) ->
       Store.todos (store (snd out)) =
         List.filter (fun todo => negb (Todo.id todo =? id)%Z)
                     (Store.todos (store w)) /\
       forall t, In t (Store.todos (store (snd out))) <->
                 In t (Store.todos (store w)) /\ Todo.id t <> id) /\
   (forall e b2,
       onDelete env id b1 = (Rejected e, b2) ->
       Store.todos (store (snd out)) = Store.todos (store w) /\
       Store.error (store (snd out)) =
         errorMessage e (lit "Error al eliminar la tarea"))).
Proof.
  intros Hc out. subst out. split; intro Ha; subst answer.
  - rewrite (deleteTodoById_declined env w id b1 Hc). cbn.
    rewrite requests_app. cbn. rewrite app_nil_r. split; reflexivity.
  - destruct (onDelete env id b1) as [[u0|e0] b0] eqn:E.
    + rewrite (deleteTodoById_resolved env w id b1 u0 b0 Hc E). cbn.
      rewrite requests_app. cbn. split; [reflexivity|]. split.
      * intros u b2 _. split; [reflexivity|].
        intro t. apply in_filter_other_id.
      * intros e b2 H. discriminate H.
    + rewrite (deleteTodoById_rejected env w id b1 e0 b0 Hc E). cbn.
      rewrite requests_app. cbn. split; [reflexivity|]. split.
      * intros u b2 H. discriminate H.
      * intros e b2 H. injection H as <- _. split; reflexivity.
Qed.

Lemma deleteTodoById_spec_witness :
  let w := worldOf [mkTodo 4 "milk" PENDING; mkTodo 5 "report" COMPLETED] in
  Store.todos (store (snd (fromRender (fun todos => deleteTodoById echoEnv todos 4) w)))
    = [mkTodo 5 "report" COMPLETED] /\
  requests (trace (snd (fromRender (fun todos => deleteTodoById echoEnv todos 8) w)))
    = [ReqDelete 8] /\
  store (snd (fromRender (fun todos => deleteTodoById decliningEnv todos 4) w))
    = store w /\
  Store.todos (store (snd (fromRender (fun todos => deleteTodoById failingEnv todos 4) w)))
    = Store.todos (store w).
Proof.
  intro w.
  destruct (deleteTodoById_spec echoEnv w 4 true tt eq_refl) as [_ H1].
  destruct (H1 eq_refl) as (_ & H1' & _).
  destruct (deleteTodoById_spec echoEnv w 8 true tt eq_refl) as [_ H2].
  destruct (H2 eq_refl) as (H2' & _).
  destruct (deleteTodoById_spec decliningEnv w 4 false tt eq_refl) as [H3 _].
  destruct (deleteTodoById_spec failingEnv w 4 true tt eq_refl) as [_ H4].
  destruct (H4 eq_refl) as (_ & _ & H4').
  split; [exact (proj1 (H1' tt tt eq_refl))|]. split; [exact H2'|].
  split; [exact (proj2 (H3 eq_refl))|].
  exact (proj1 (H4' http500 tt eq_refl)).
Defined.

(** ** [getCounts] *)

Lemma length_filter_status (l : list Todo.t) :
  List.length l =
  (List.length (getFilteredTodos l active) +
   List.length (getFilteredTodos l completed) +
   List.length (getFilteredTodos l cancelled))%nat.
Proof.
  unfold getFilteredTodos.
  induction l as [|t l IH]; cbn [List.filter List.length]; [reflexivity|].
  destruct (Todo.status t); cbn [status_eqb orb List.length]; lia.
Qed.

(** X6: the counts of [getCounts] agree with the filters: [activeCount],
    although obtained by subtraction, is the number of tasks that
    [getFilteredTodos('active')] lists, the other two counts are those of
    the completed and cancelled filters, no count is negative, and the three
    add up to [totalCount]. *)
Theorem getCounts_agree_with_filters (todos : list Todo.t) :
  let c := getCounts todos in
  Counts.activeCount c =
    Z.of_nat (List.length (getFilteredTodos todos active)) /\
  Counts.completedCount c =
    Z.of_nat (List.length (getFilteredTodos todos completed)) /\
  Counts.cancelledCount c =
    Z.of_nat (List.length (getFilteredTodos todos cancelled)) /\
  Counts.totalCount c = Z.of_nat (List.length (getFilteredTodos todos all)) /\
  (Counts.activeCount c + Counts.completedCount c + Counts.cancelledCount c
   = Counts.totalCount c)%Z /\
  (0 <= Counts.activeCount c)%Z.
Proof.
  intro c. subst c. unfold getCounts. cbn [Counts.activeCount
    Counts.completedCount Counts.cancelledCount Counts.totalCount].
  pose proof (length_filter_status todos) as H.
  unfold getFilteredTodos in *.
  repeat split; lia.
Qed.

(** ** [deleteMultipleTodos] *)

Section BatchDelete.
Context {B : Type} (env : Environment B).

(** Each promise of the batch holds the answer of the backend to its id. *)
Lemma mapAsync_deleteTodo_answers (ids : list Z) (w : World B) :
  exists ps b',
    todosApi.mapAsync (todosApi.deleteTodo env) ids w =
    (Ok ps, {| store := store w; timers := timers w;
               trace := trace w ++ deleteEvents ids; backend := b' |}) /\
    Forall2 (fun id p => exists b, p = fst (onDelete env id b)) ids ps.
Proof.
  revert w. induction ids as [|id ids IH]; intro w.
  - exists [], (backend w). cbn. unfold ret. rewrite app_nil_r.
    split; [destruct w; reflexivity|constructor].
  - cbn [todosApi.mapAsync].
    unfold bind, todosApi.promise, ret. rewrite deleteTodo_run.
    set (w1 := {| store := store w |}).
    destruct (IH w1) as (ps & b' & H & HF). rewrite H.
    exists (fst (onDelete env id (backend w)) :: ps), b'. split.
    + cbn. rewrite <- app_assoc. reflexivity.
    + constructor; [|exact HF]. now exists (backend w).
Qed.

Lemma Promise_all_all_resolved {A} (ps : list (Result A)) (w : World B) :
  Forall (fun p => exists a, p = Ok a) ps ->
  exists l, todosApi.Promise_all ps w = (Ok l, w).
Proof.
  induction 1 as [|p ps [a ->] _ [l IH]]; cbn.
  - now exists [].
  - exists (a :: l). unfold bind, ret. now rewrite IH.
Qed.

Lemma Promise_all_one_rejected {A} (ps : list (Result A)) (w : World B) :
  Exists (fun p => exists e, p = Rejected e) ps ->
  exists e, todosApi.Promise_all ps w = (Rejected e, w).
Proof.
  induction ps as [|[a|e0] ps IH]; intro H.
  - inversion H.
  - cbn. unfold bind. inversion H as [? ? [e He]|? ? H']; subst.
    + discriminate He.
    + destruct (IH H') as [e ->]. now exists e.
  - exists e0. reflexivity.
Qed.

Lemma deleteMultipleTodos_resolves (ids : list Z) (w : World B) :
  (forall id b, In id ids -> exists u, fst (onDelete env id b) = Ok u) ->
  fst (todosApi.deleteMultipleTodos env ids w) = Ok tt.
Proof.
  intro Hall. unfold todosApi.deleteMultipleTodos.
  destruct (mapAsync_deleteTodo_answers ids w) as (ps & b' & H & HF).
  unfold bind at 1. rewrite H.
  set (w1 := {| store := store w |}).
  destruct (Promise_all_all_resolved ps w1) as [l Hl].
  - clear H. induction HF as [|id p ids ps [b Hp] _ IH]; constructor.
    + destruct (Hall id b (or_introl eq_refl)) as [u Hu].
      exists u. congruence.
    + apply IH. intros id' b0 Hin. apply Hall. now right.
  - unfold bind, ret. rewrite Hl. reflexivity.
Qed.

Lemma deleteMultipleTodos_rejects (ids : list Z) (w : World B) (id : Z) :
  In id ids ->
  (forall b, exists e, fst (onDelete env id b) = Rejected e) ->
  exists e, fst (todosApi.deleteMultipleTodos env ids w) = Rejected e.
Proof.
  intros Hin Hrej. unfold todosApi.deleteMultipleTodos.
  destruct (mapAsync_deleteTodo_answers ids w) as (ps & b' & H & HF).
  unfold bind at 1. rewrite H.
  set (w1 := {| store := store w |}).
  destruct (Promise_all_one_rejected ps w1) as [e He].
  - clear H. induction HF as [|id0 p ids ps [b Hp] _ IH]; [destruct Hin|].
    destruct Hin as [->|Hin].
    + left. destruct (Hrej b) as [e He]. exists e. congruence.
    + right. now apply IH.
  - exists e. unfold bind. rewrite He. reflexivity.
Qed.
End BatchDelete.

Lemma mapAsync_deleteTodo_run {B} (env : Environment B) (ids : list Z)
    (w : World B) :
  todosApi.mapAsync (todosApi.deleteTodo env) ids w =
  (Ok (fst (deleteAnswers env ids (backend w))),
   {| store := store w; timers := timers w;
      trace := trace w ++ deleteEvents ids;
      backend := snd (deleteAnswers env ids (backend w)) |}).
Proof.
  revert w. induction ids as [|id ids IH]; intro w.
  - cbn. unfold ret. rewrite app_nil_r. destruct w; reflexivity.
  - cbn [todosApi.mapAsync deleteAnswers].
    unfold bind, todosApi.promise, ret. rewrite deleteTodo_run.
    destruct (onDelete env id (backend w)) as [r b1] eqn:E. cbn [fst snd].
    rewrite IH. cbn [backend].
    destruct (deleteAnswers env ids b1) as [rs b2]. cbn.
    rewrite <- app_assoc. reflexivity.
Qed.

Lemma Promise_all_rejected_in {B A} (ps : list (Result A)) (w : World B)
    (e : Thrown) :
  fst (todosApi.Promise_all ps w) = Rejected e -> In (Rejected e) ps.
Proof.
  induction ps as [|[a|e0] ps IH]; cbn.
  - discriminate.
  - unfold bind, ret.
    destruct (todosApi.Promise_all ps w) as [[l|e1] w']; cbn in *.
    + discriminate.
    + intro H. right. apply IH. exact H.
  - unfold throw. cbn. intro H. left. injection H as ->. reflexivity.
Qed.

Lemma Promise_all_settles {B A} (ps : list (Result A)) (w : World B) :
  (exists l, fst (todosApi.Promise_all ps w) = Ok l /\ ps = map (@Ok A) l) \/
  (exists e, fst (todosApi.Promise_all ps w) = Rejected e /\
             In (Rejected e) ps).
Proof.
  destruct (fst (todosApi.Promise_all ps w)) as [l|e] eqn:E.
  - left. exists l. split; [reflexivity|]. now apply (Promise_all_resolves ps w).
  - right. exists e. split; [reflexivity|].
    now apply (Promise_all_rejected_in ps w).
Qed.

Lemma deleteMultipleTodos_run {B} (env : Environment B) (ids : list Z)
    (w : World B) :
  exists r,
    todosApi.deleteMultipleTodos env ids w =
    (r, {| store := store w; timers := timers w;
           trace := trace w ++ deleteEvents ids;
           backend := snd (deleteAnswers env ids (backend w)) |}) /\
    ((r = Ok tt /\
      forall a, In a (fst (deleteAnswers env ids (backend w))) -> a = Ok tt) \/
     (exists e, r = Rejected e /\
                In (Rejected e) (fst (deleteAnswers env ids (backend w))))).
Proof.
  unfold todosApi.deleteMultipleTodos.
  unfold bind at 1. rewrite mapAsync_deleteTodo_run.
  set (ps := fst (deleteAnswers env ids (backend w))).
  set (w1 := {| store := store w |}).
  pose proof (Promise_all_world ps w1) as Hw.
  pose proof (Promise_all_settles ps w1) as HS.
  unfold bind, ret.
  destruct (todosApi.Promise_all ps w1) as [r w2]. cbn in Hw, HS. subst w2.
  destruct r as [l|e].
  - destruct HS as [(l' & _ & Hps)|(e & He & _)]; [|discriminate He].
    exists (Ok tt). split; [reflexivity|]. left. split; [reflexivity|].
    intros a Ha. rewrite Hps in Ha. apply in_map_iff in Ha.
    destruct Ha as ([] & <- & _). reflexivity.
  - destruct HS as [(l' & Hl & _)|(e' & He & Hin)]; [discriminate Hl|].
    injection He as <-.
    exists (Rejected e). split; [reflexivity|]. right. now exists e.
Qed.

(** X7: [deleteMultipleTodos(ids)] sends one deletion per id, in order,
    whatever the backend answers, and touches nothing of the store.  Its
    outcome is decided by the answers the backend gives to these deletions,
    which may depend on what it received before: it resolves exactly when
    every one of them is accepted, and it rejects exactly when one of them
    is refused, with the error of a refused one, although the others have
    been sent too. *)
Theorem deleteMultipleTodos_spec {B} (env : Environment B) (w : World B)
    (ids : list Z) :
  let out := todosApi.deleteMultipleTodos env ids w in
  let answers := fst (deleteAnswers env ids (backend w)) in
  requests (trace (snd out)) = requests (trace w) ++ map ReqDelete ids /\
  store (snd out) = store w /\
  backend (snd out) = snd (deleteAnswers env ids (backend w)) /\
  (fst out = Ok tt <-> forall a, In a answers -> a = Ok tt) /\
  ((exists e, fst out = Rejected e) <-> exists e, In (Rejected e) answers) /\
  (forall e, fst out = Rejected e -> In (Rejected e) answers).
Proof.
  intros out answers. subst out answers.
  destruct (deleteMultipleTodos_run env ids w) as (r & Hrun & Hr).
  rewrite Hrun. cbn [fst snd store trace backend].
  rewrite requests_app, requests_deleteEvents.
  split; [reflexivity|]. split; [reflexivity|]. split; [reflexivity|].
  destruct Hr as [[-> Hall]|(e & -> & Hin)].
  - split; [tauto|]. split; [split|].
    + intros [e H]. discriminate H.
    + intros [e H]. apply Hall in H. discriminate H.
    + intros e H. discriminate H.
  - split; [split|split; [split|]].
    + intro H. discriminate H.
    + intro H. apply H in Hin. discriminate Hin.
    + intros _. now exists e.
    + intros _. now exists e.
    + intros e' H. injection H as <-. exact Hin.
Qed.

Lemma deleteMultipleTodos_spec_witness :
  fst (todosApi.deleteMultipleTodos echoEnv [1; 2; 3]%Z (worldOf [])) = Ok tt /\
  (exists e,
      fst (todosApi.deleteMultipleTodos refuseSecondEnv [1; 2; 3]%Z
             (worldWith [] 0%nat)) = Rejected e) /\
  requests (trace (snd (todosApi.deleteMultipleTodos refuseSecondEnv
                          [1; 2; 3]%Z (worldWith [] 0%nat))))
    = [ReqDelete 1; ReqDelete 2; ReqDelete 3] /\
  backend (snd (todosApi.deleteMultipleTodos refuseSecondEnv [1; 2; 3]%Z
                  (worldWith [] 0%nat))) = 3%nat.
Proof.
  destruct (deleteMultipleTodos_spec echoEnv (worldOf []) [1; 2; 3]%Z)
    as (_ & _ & _ & H1 & _).
  destruct (deleteMultipleTodos_spec refuseSecondEnv (worldWith [] 0%nat)
              [1; 2; 3]%Z) as (H2 & _ & H3 & _ & H4 & _).
  split; [|split; [|split]].
  - apply H1. cbn. intros a [<-|[<-|[<-|[]]]]; reflexivity.
  - apply H4. exists http500. cbn. right. left. reflexivity.
  - exact H2.
  - exact H3.
Defined.

(** ** [deleteAllCompleted] and [getCounts] *)

Lemma filter_completed_of_rest (l : list Todo.t) :
  List.filter (fun todo => status_eqb (Todo.status todo) COMPLETED)
    (List.filter (fun todo => negb (isCompleted todo)) l) = [].
Proof.
  induction l as [|t l IH]; cbn [List.filter]; [reflexivity|].
  unfold isCompleted at 1.
  destruct (Todo.status t) eqn:Es; cbn [status_eqb negb List.filter];
    rewrite ?Es; cbn [status_eqb]; exact IH.
Qed.

Lemma filter_cancelled_of_rest (l : list Todo.t) :
  List.filter (fun todo => status_eqb (Todo.status todo) CANCELLED)
    (List.filter (fun todo => negb (isCompleted todo)) l) =
  List.filter (fun todo => status_eqb (Todo.status todo) CANCELLED) l.
Proof.
  induction l as [|t l IH]; cbn [List.filter]; [reflexivity|].
  unfold isCompleted at 1.
  destruct (Todo.status t) eqn:Es; cbn [status_eqb negb List.filter];
    rewrite ?Es; cbn [status_eqb]; rewrite IH; reflexivity.
Qed.

Lemma length_rest (l : list Todo.t) :
  (List.length (List.filter (fun todo => negb (isCompleted todo)) l) +
   List.length (List.filter isCompleted l) = List.length l)%nat.
Proof.
  induction l as [|t l IH]; cbn; [reflexivity|].
  destruct (isCompleted t); cbn; lia.
Qed.

(** X8: with a user who confirms and a backend that accepts every deletion,
    [deleteAllCompleted] brings [completedCount] to 0, leaves [activeCount]
    and [cancelledCount] as they were, and lowers [totalCount] by the former
    [completedCount]. *)
Theorem deleteAllCompleted_counts {B} (env : Environment B) (w : World B) :
  (forall m b, fst (onConfirm env m b) = true) ->
  (forall id b, exists u, fst (onDelete env id b) = Ok u) ->
  let before := getCounts (Store.todos (store w)) in
  let after :=
    getCounts
      (Store.todos (store (snd (fromRender (deleteAllCompleted env) w)))) in
  Counts.completedCount after = 0%Z /\
  Counts.cancelledCount after = Counts.cancelledCount before /\
  Counts.activeCount after = Counts.activeCount before /\
  Counts.totalCount after =
    (Counts.totalCount before - Counts.completedCount before)%Z.
Proof.
  intros Hconf Hdel before after. subst before after.
  assert (Hlist :
    Store.todos (store (snd (fromRender (deleteAllCompleted env) w))) =
    List.filter (fun todo => negb (isCompleted todo)) (Store.todos (store w))).
  { destruct (List.filter isCompleted (Store.todos (store w))) as [|t0 l0] eqn:E.
    - rewrite (deleteAllCompleted_none env w E). cbn [snd].
      clear - E. induction (Store.todos (store w)) as [|t l IH];
        cbn in *; [reflexivity|].
      destruct (isCompleted t); [discriminate E|]. cbn. f_equal. now apply IH.
    - assert (Hne : List.filter isCompleted (Store.todos (store w)) <> [])
        by (rewrite E; discriminate).
      destruct (onConfirm env
                  (msgConfirmCompleted
                     (List.length (List.filter isCompleted (Store.todos (store w)))))
                  (backend w)) as [answer b1] eqn:Hc.
      pose proof (Hconf (msgConfirmCompleted
                     (List.length (List.filter isCompleted (Store.todos (store w)))))
                    (backend w)) as Ha.
      rewrite Hc in Ha. cbn in Ha. subst answer.
      destruct (deleteAllCompleted_confirmed env w b1 Hne Hc)
        as (r & b2 & Hd & Hrun).
      rewrite Hrun. cbn [snd].
      match type of Hd with
      | todosApi.deleteMultipleTodos env ?i ?x = _ =>
          pose proof (deleteMultipleTodos_resolves env i x
                        (fun id b _ => Hdel id b)) as Hok
      end.
      rewrite Hd in Hok. cbn in Hok. subst r. reflexivity. }
  rewrite Hlist. unfold getCounts.
  cbn [Counts.activeCount Counts.completedCount Counts.cancelledCount
       Counts.totalCount].
  rewrite filter_completed_of_rest, filter_cancelled_of_rest.
  pose proof (length_rest (Store.todos (store w))) as HL.
  unfold isCompleted in HL at 2. cbn [List.length].
  repeat split; lia.
Qed.

Lemma deleteAllCompleted_counts_witness :
  let w := worldOf [mkTodo 1 "milk" COMPLETED; mkTodo 2 "bread" PENDING;
                    mkTodo 3 "eggs" COMPLETED; mkTodo 4 "tea" CANCELLED] in
  getCounts (Store.todos (store (snd (fromRender (deleteAllCompleted echoEnv) w))))
  = Counts.mk 0 1 1 2.
Proof.
  intro w.
  pose proof (deleteAllCompleted_counts echoEnv w
                (fun _ _ => eq_refl) (fun _ _ => ex_intro _ tt eq_refl)) as H.
  cbv zeta in H. destruct H as (H1 & H2 & H3 & H4).
  destruct (getCounts _) as [c x a t]. cbn in H1, H2, H3, H4. congruence.
Defined.

(** ** Completion, loading flags and error timers of every function *)

Ltac settled :=
  unfold wellSettled; cbn;
  split; [eauto|];
  split; [auto|];
  split; [auto|];
  first [ left; split; reflexivity
        | right; eexists; split; [reflexivity|auto] ].

Section Settled.
Context {B : Type} (env : Environment B).

Lemma fetchTodos_settled (w : World B) : wellSettled w (fetchTodos env w).
Proof.
  destruct (onFetchAll env (backend w)) as [[data|e] b1] eqn:E.
  - rewrite (fetchTodos_resolved env w _ _ E). settled.
  - rewrite (fetchTodos_rejected env w _ _ E). settled.
Qed.

Lemma searchTodos_settled (w : World B) query :
  wellSettled w (searchTodos env query w).
Proof.
  destruct (trim query) as [|c r] eqn:Eq.
  - rewrite (searchTodos_blank env w query Eq).
    destruct (fetchTodos_settled w) as (_ & H2 & H3 & H4).
    unfold wellSettled. cbn [fst snd]. eauto.
  - assert (Hq : trim query <> []) by (rewrite Eq; discriminate).
    destruct (isWellFormed query) eqn:Hwf;
      [|rewrite (searchTodos_malformed env w _ Hq Hwf); settled].
    destruct (onSearch env query (backend w)) as [[data|e] b1] eqn:E.
    + rewrite (searchTodos_resolved env w _ _ _ Hq Hwf E). settled.
    + rewrite (searchTodos_rejected env w _ _ _ Hq Hwf E). settled.
Qed.

Lemma addTodo_settled (w : World B) title description :
  wellSettled w
    (fromRender
       (fun todos => addTodo env todos (CreateTodoDto.mk title description)) w).
Proof.
  destruct (trim title) as [|c r] eqn:Et.
  - rewrite (addTodo_blank env w title description (or_introl Et)). settled.
  - destruct (trim description) as [|c' r'] eqn:Ed.
    + rewrite (addTodo_blank env w title description (or_intror Ed)). settled.
    + assert (Ht : trim title <> []) by (rewrite Et; discriminate).
      assert (Hd : trim description <> []) by (rewrite Ed; discriminate).
      destruct (onCreate env
                  (CreateTodoDto.mk (trim title) (trim description))
                  (backend w)) as [[t|e] b1] eqn:E.
      * rewrite (addTodo_resolved env w _ _ _ _ Ht Hd E). settled.
      * rewrite (addTodo_rejected env w _ _ _ _ Ht Hd E). settled.
Qed.

Lemma toggleTodo_settled (w : World B) id :
  wellSettled w (fromRender (fun todos => toggleTodo env todos id) w).
Proof.
  destruct (find (fun t => Todo.id t =? id)%Z (Store.todos (store w)))
    as [todo|] eqn:Hf.
  - destruct (onUpdate env id
                (UpdateTodoDto.mk (Todo.title todo) (Todo.description todo)
                   (toggledStatus (Todo.status todo))) (backend w))
      as [[r|e] b1] eqn:E.
    + rewrite (toggleTodo_resolved env w id todo r b1 Hf E). settled.
    + rewrite (toggleTodo_rejected env w id todo e b1 Hf E). settled.
  - rewrite (toggleTodo_absent env w id Hf). settled.
Qed.

Lemma changeStatus_settled (w : World B) id s :
  wellSettled w (fromRender (fun todos => changeStatus env todos id s) w).
Proof.
  destruct (find (fun t => Todo.id t =? id)%Z (Store.todos (store w)))
    as [todo|] eqn:Hf.
  - destruct (onUpdate env id
                (UpdateTodoDto.mk (Todo.title todo) (Todo.description todo) s)
                (backend w)) as [[r|e] b1] eqn:E.
    + rewrite (changeStatus_resolved env w id s todo r b1 Hf E). settled.
    + rewrite (changeStatus_rejected env w id s todo e b1 Hf E). settled.
  - rewrite (changeStatus_absent env w id s Hf). settled.
Qed.

Lemma deleteTodoById_settled (w : World B) id :
  wellSettled w (fromRender (fun todos => deleteTodoById env todos id) w).
Proof.
  destruct (onConfirm env msgConfirmOne (backend w)) as [[|] b1] eqn:Hc.
  - destruct (onDelete env id b1) as [[u|e] b2] eqn:E.
    + rewrite (deleteTodoById_resolved env w id b1 u b2 Hc E). settled.
    + rewrite (deleteTodoById_rejected env w id b1 e b2 Hc E). settled.
  - rewrite (deleteTodoById_declined env w id b1 Hc). settled.
Qed.

Lemma deleteAllCompleted_settled (w : World B) :
  wellSettled w (fromRender (deleteAllCompleted env) w).
Proof.
  destruct (List.filter isCompleted (Store.todos (store w))) as [|t0 l0] eqn:E.
  - rewrite (deleteAllCompleted_none env w E). settled.
  - assert (Hne : List.filter isCompleted (Store.todos (store w)) <> [])
      by (rewrite E; discriminate).
    destruct (onConfirm env
                (msgConfirmCompleted
                   (List.length (List.filter isCompleted (Store.todos (store w)))))
                (backend w)) as [[|] b1] eqn:Hc.
    + destruct (deleteAllCompleted_confirmed env w b1 Hne Hc)
        as (r & b2 & _ & Hrun).
      rewrite Hrun. destruct r as [u|e]; settled.
    + rewrite (deleteAllCompleted_declined env w b1 Hne Hc). settled.
Qed.
End Settled.

Lemma perform_settled {B} (env : Environment B) (c : Call) (w : World B) :
  wellSettled w (perform env c w).
Proof.
  destruct c as [|query|[title description]|id|id s|id|]; cbn [perform].
  - apply fetchTodos_settled.
  - apply searchTodos_settled.
  - destruct (addTodo_settled env w title description) as ([a Ha] & H2 & H3 & H4).
    unfold bind, ret.
    destruct (fromRender _ w) as [[a0|e] w'] eqn:E; cbn in *; [|discriminate Ha].
    unfold wellSettled. cbn. eauto.
  - apply toggleTodo_settled.
  - apply changeStatus_settled.
  - apply deleteTodoById_settled.
  - apply deleteAllCompleted_settled.
Qed.

Lemma perform_resolves {B} (env : Environment B) (c : Call) (w : World B) :
  perform env c w = (Ok tt, snd (perform env c w)).
Proof.
  destruct (perform_settled env c w) as ([[] Ha] & _).
  destruct (perform env c w) as [r w']. cbn in *. now subst r.
Qed.

Lemma performAll_cons {B} (env : Environment B) (c : Call) (cs : list Call)
    (w : World B) :
  performAll env (c :: cs) w = performAll env cs (snd (perform env c w)).
Proof.
  cbn [performAll]. unfold bind. now rewrite perform_resolves.
Qed.

(** X9: no call of the hook ever rejects: whatever the backend and the user
    answer, and after any sequence of calls, every promise the hook returned
    has resolved. *)
Theorem hook_never_rejects {B} (env : Environment B) (cs : list Call)
    (w : World B) :
  fst (performAll env cs w) = Ok tt /\
  forall c, fst (perform env c (snd (performAll env cs w))) = Ok tt.
Proof.
  revert w. induction cs as [|c cs IH]; intro w.
  - split; [reflexivity|]. intro c. cbn. now rewrite perform_resolves.
  - rewrite performAll_cons. apply IH.
Qed.

(** X10: the loading flags are never left on: after any sequence of calls,
    [loading] is off if it was off before, and so is [initialLoading]. *)
Theorem hook_flags_never_stuck {B} (env : Environment B) (cs : list Call)
    (w : World B) :
  (Store.loading (store w) = false ->
   Store.loading (store (snd (performAll env cs w))) = false) /\
  (Store.initialLoading (store w) = false ->
   Store.initialLoading (store (snd (performAll env cs w))) = false).
Proof.
  revert w. induction cs as [|c cs IH]; intro w.
  - cbn. auto.
  - rewrite performAll_cons.
    destruct (perform_settled env c w) as (_ & H2 & H3 & _).
    destruct (IH (snd (perform env c w))) as [I1 I2]. auto.
Qed.

Lemma hook_flags_never_stuck_witness :
  let w := worldOf [mkTodo 1 "milk" COMPLETED; mkTodo 2 "bread" PENDING] in
  let cs := [CallSearchTodos (lit "milk"); CallDeleteAllCompleted;
             CallAddTodo (CreateTodoDto.mk (lit "tea") (lit "green"))] in
  Store.loading (store (snd (performAll failingEnv cs w))) = false /\
  Store.initialLoading (store (snd (performAll failingEnv cs w))) = false.
Proof.
  intros w cs.
  destruct (hook_flags_never_stuck failingEnv cs w) as [H1 H2].
  split; [exact (H1 eq_refl)|exact (H2 eq_refl)].
Defined.

Lemma step_resolves {B} (env : Environment B) (st : Step) (w : World B) :
  step env st w = (Ok tt, snd (step env st w)).
Proof.
  destruct st as [c|k]; cbn [step].
  - apply perform_resolves.
  - unfold fireTimer. destruct (nth_error (timers w) k) as [[[] ms]|];
      reflexivity.
Qed.

Lemma runSteps_cons {B} (env : Environment B) (st : Step) (ss : list Step)
    (w : World B) :
  runSteps env (st :: ss) w = runSteps env ss (snd (step env st w)).
Proof.
  cbn [runSteps]. unfold bind. now rewrite step_resolves.
Qed.

(** X11: the error message is never left without a timer that will clear
    it.  From a store whose error is empty or which has a pending timer, and
    through any sequence of calls of the hook and of timers firing between
    them, in any order, the error message is empty or a timer that clears it
    is pending; and a timer that fires leaves the error message empty. *)
Theorem error_always_has_timer {B} (env : Environment B) (ss : list Step)
    (w : World B) :
  Store.error (store w) = [] \/ timers w <> [] ->
  fst (runSteps env ss w) = Ok tt /\
  (Store.error (store (snd (runSteps env ss w))) = [] \/
   timers (snd (runSteps env ss w)) <> []) /\
  (forall k, (k < List.length (timers (snd (runSteps env ss w))))%nat ->
     Store.error
       (store (snd (fireTimer k (snd (runSteps env ss w))))) = [] /\
     List.length (timers (snd (fireTimer k (snd (runSteps env ss w))))) =
       (List.length (timers (snd (runSteps env ss w))) - 1)%nat).
Proof.
  revert w. induction ss as [|st ss IH]; intros w Hw.
  - cbn. split; [reflexivity|]. split; [exact Hw|].
    intros k Hk. unfold fireTimer.
    destruct (nth_error (timers w) k) as [[[] ms]|] eqn:E.
    + unfold runCallback, setError, bind, emit, modifyStore.
      cbn [fst snd store timers Store.error]. split; [reflexivity|].
      rewrite length_app, firstn_length_le, length_skipn by lia. lia.
    + apply nth_error_None in E. lia.
  - rewrite runSteps_cons. apply IH.
    destruct st as [c|k]; cbn [step].
    + destruct (perform_settled env c w)
        as (_ & _ & _ & [[E1 E2]|(ms & E1 & _)]).
      * rewrite E1, E2. exact Hw.
      * right. rewrite E1. intro H. apply app_eq_nil in H.
        destruct H as [_ H]. discriminate H.
    + unfold fireTimer.
      destruct (nth_error (timers w) k) as [[[] ms]|]; [|exact Hw].
      left. reflexivity.
Qed.

(** ** Unique ids *)

Lemma ids_replaced (id : Z) (r : Todo.t) (l : list Todo.t) :
  Todo.id r = id ->
  map Todo.id (map (fun t => if (Todo.id t =? id)%Z then r else t) l) =
  map Todo.id l.
Proof.
  intro Hr. induction l as [|t l IH]; cbn; [reflexivity|].
  rewrite IH. destruct (Z.eqb_spec (Todo.id t) id); congruence.
Qed.

Lemma NoDup_ids_filter (p : Todo.t -> bool) (l : list Todo.t) :
  NoDup (map Todo.id l) -> NoDup (map Todo.id (List.filter p l)).
Proof.
  induction l as [|t l IH]; cbn; intro H; [constructor|].
  inversion H as [|? ? Hn Hl]; subst.
  destruct (p t); cbn; [constructor|]; auto.
  intro Hin. apply Hn. apply in_map_iff in Hin. destruct Hin as (t' & E & Hin).
  apply filter_In in Hin. apply in_map_iff. exists t'. tauto.
Qed.

Lemma NoDup_ids_snoc (l : list Todo.t) (t : Todo.t) :
  NoDup (map Todo.id l) -> ~ In (Todo.id t) (map Todo.id l) ->
  NoDup (map Todo.id (l ++ [t])).
Proof.
  intros Hl Hn. rewrite map_app. cbn.
  apply NoDup_app; [exact Hl|repeat constructor; auto|].
  intros x Hx [<-|[]]. contradiction.
Qed.

(** X12: the ids of the list stay unique through every call of the hook,
    provided the backend behaves: the lists it returns have unique ids, it
    answers an update with a task of the id that was asked, and the task it
    creates has an id the list does not hold. *)
Theorem ids_stay_unique {B} (env : Environment B) (w : World B) (c : Call) :
  NoDup (map Todo.id (Store.todos (store w))) ->
  (forall b l b', onFetchAll env b = (Ok l, b') -> NoDup (map Todo.id l)) ->
  (forall q b l b', onSearch env q b = (Ok l, b') -> NoDup (map Todo.id l)) ->
  (forall id dto b r b', onUpdate env id dto b = (Ok r, b') -> Todo.id r = id) ->
  (forall dto r b',
      onCreate env dto (backend w) = (Ok r, b') ->
      ~ In (Todo.id r) (map Todo.id (Store.todos (store w)))) ->
  NoDup (map Todo.id (Store.todos (store (snd (perform env c w))))).
Proof.
  intros Hnd Hfa Hse Hup Hcr.
  assert (Hfetch : NoDup (map Todo.id (Store.todos (store (snd (fetchTodos env w)))))).
  { destruct (onFetchAll env (backend w)) as [[data|e] b1] eqn:E.
    - rewrite (fetchTodos_resolved env w _ _ E). cbn. eapply Hfa; eauto.
    - rewrite (fetchTodos_rejected env w _ _ E). cbn. constructor. }
  destruct c as [|query|[title description]|id|id s|id|]; cbn [perform].
  - exact Hfetch.
  - destruct (trim query) as [|ch r] eqn:Eq.
    + rewrite (searchTodos_blank env w query Eq). exact Hfetch.
    + assert (Hq : trim query <> []) by (rewrite Eq; discriminate).
      destruct (isWellFormed query) eqn:Hwf;
        [|rewrite (searchTodos_malformed env w _ Hq Hwf); exact Hnd].
      destruct (onSearch env query (backend w)) as [[data|e] b1] eqn:E.
      * rewrite (searchTodos_resolved env w _ _ _ Hq Hwf E). cbn. eapply Hse; eauto.
      * rewrite (searchTodos_rejected env w _ _ _ Hq Hwf E). cbn. exact Hnd.
  - unfold bind, ret.
    destruct (trim title) as [|ch r] eqn:Et.
    + rewrite (addTodo_blank env w title description (or_introl Et)). exact Hnd.
    + destruct (trim description) as [|ch' r'] eqn:Ed.
      * rewrite (addTodo_blank env w title description (or_intror Ed)). exact Hnd.
      * assert (Ht : trim title <> []) by (rewrite Et; discriminate).
        assert (Hd : trim description <> []) by (rewrite Ed; discriminate).
        destruct (onCreate env
                    (CreateTodoDto.mk (trim title) (trim description))
                    (backend w)) as [[t|e] b1] eqn:E.
        -- rewrite (addTodo_resolved env w _ _ _ _ Ht Hd E). cbn.
           apply NoDup_ids_snoc; [exact Hnd|]. eapply Hcr; eauto.
        -- rewrite (addTodo_rejected env w _ _ _ _ Ht Hd E). exact Hnd.
  - destruct (find (fun t => Todo.id t =? id)%Z (Store.todos (store w)))
      as [todo|] eqn:Hf.
    + destruct (onUpdate env id
                  (UpdateTodoDto.mk (Todo.title todo) (Todo.description todo)
                     (toggledStatus (Todo.status todo))) (backend w))
        as [[r|e] b1] eqn:E.
      * rewrite (toggleTodo_resolved env w id todo r b1 Hf E). cbn.
        rewrite ids_replaced; [exact Hnd|]. eapply Hup; eauto.
      * rewrite (toggleTodo_rejected env w id todo e b1 Hf E). exact Hnd.
    + rewrite (toggleTodo_absent env w id Hf). exact Hnd.
  - destruct (find (fun t => Todo.id t =? id)%Z (Store.todos (store w)))
      as [todo|] eqn:Hf.
    + destruct (onUpdate env id
                  (UpdateTodoDto.mk (Todo.title todo) (Todo.description todo) s)
                  (backend w)) as [[r|e] b1] eqn:E.
      * rewrite (changeStatus_resolved env w id s todo r b1 Hf E). cbn.
        rewrite ids_replaced; [exact Hnd|]. eapply Hup; eauto.
      * rewrite (changeStatus_rejected env w id s todo e b1 Hf E). exact Hnd.
    + rewrite (changeStatus_absent env w id s Hf). exact Hnd.
  - destruct (onConfirm env msgConfirmOne (backend w)) as [[|] b1] eqn:Hc.
    + destruct (onDelete env id b1) as [[u|e] b2] eqn:E.
      * rewrite (deleteTodoById_resolved env w id b1 u b2 Hc E). cbn.
        now apply NoDup_ids_filter.
      * rewrite (deleteTodoById_rejected env w id b1 e b2 Hc E). exact Hnd.
    + rewrite (deleteTodoById_declined env w id b1 Hc). exact Hnd.
  - destruct (List.filter isCompleted (Store.todos (store w))) as [|t0 l0] eqn:E.
    + rewrite (deleteAllCompleted_none env w E). exact Hnd.
    + assert (Hne : List.filter isCompleted (Store.todos (store w)) <> [])
        by (rewrite E; discriminate).
      destruct (onConfirm env
                  (msgConfirmCompleted
                     (List.length (List.filter isCompleted (Store.todos (store w)))))
                  (backend w)) as [[|] b1] eqn:Hc.
      * destruct (deleteAllCompleted_confirmed env w b1 Hne Hc)
          as (r & b2 & _ & Hrun).
        rewrite Hrun. destruct r as [u|e]; cbn; [|exact Hnd].
        now apply NoDup_ids_filter.
      * rewrite (deleteAllCompleted_declined env w b1 Hne Hc). exact Hnd.
Qed.

Lemma ids_stay_unique_witness :
  let w := worldOf [mkTodo 4 "milk" PENDING; mkTodo 5 "report" COMPLETED] in
  NoDup (map Todo.id
           (Store.todos
              (store (snd (perform echoEnv
                             (CallAddTodo (CreateTodoDto.mk (lit "tea") (lit "green")))
                             w))))).
Proof.
  intro w.
  apply (ids_stay_unique echoEnv w).
  - cbn. repeat constructor; cbn; intuition discriminate.
  - intros b l b' H. injection H as <- _. constructor.
  - intros q b l b' H. injection H as <- _. constructor.
  - intros id dto b r b' H. injection H as <- _. reflexivity.
  - intros dto r b' H. injection H as <- _. cbn. intuition discriminate.
Defined.

(** ** Two calls from the same render *)

Lemma toggleTodo_resolved_at {B} (env : Environment B) (snapshot : list Todo.t)
    (w : World B) id todo r b' :
  find (fun t => Todo.id t =? id)%Z snapshot = Some todo ->
  let dto := UpdateTodoDto.mk (Todo.title todo) (Todo.description todo)
               (toggledStatus (Todo.status todo)) in
  onUpdate env id dto (backend w) = (Ok r, b') ->
  let todos' := map (fun t => if (Todo.id t =? id)%Z then r else t) snapshot in
  toggleTodo env snapshot id w =
  (Ok tt,
   {| store := {| Store.todos := todos';
                  Store.loading := Store.loading (store w);
                  Store.error := Store.error (store w);
                  Store.initialLoading := Store.initialLoading (store w) |};
      timers := timers w;
      trace := trace w ++ [EvRequest (ReqUpdate id dto); EvSetTodos todos'];
      backend := b' |}).
Proof.
  intros Hf dto H todos'. unfold toggleTodo. rewrite Hf.
  rewrite toggleTodo_sends. run_js. fold dto. rewrite H. cbn.
  repeat rewrite <- app_assoc. reflexivity.
Qed.




(** X14: the same task toggled twice from the same render, the backend
    answering in the order of the calls: the same update is sent twice, and
    when the backend answers with the id and the status it was sent the task
    ends with the toggled status, never with the one it had. *)
Theorem same_render_double_toggle {B} (env : Environment B) (w : World B)
    (id : Z) (todo r1 r2 : Todo.t) (b1 b2 : B) :
  find (fun t => Todo.id t =? id)%Z (Store.todos (store w)) = Some todo ->
  let dto := UpdateTodoDto.mk (Todo.title todo) (Todo.description todo)
               (toggledStatus (Todo.status todo)) in
  onUpdate env id dto (backend w) = (Ok r1, b1) ->
  onUpdate env id dto b1 = (Ok r2, b2) ->
  Todo.id r2 = id ->
  Todo.status r2 = toggledStatus (Todo.status todo) ->
  let out :=
    fromRender
      (fun todos => toggleTodo env todos id ;; toggleTodo env todos id) w in
  requests (trace (snd out)) =
    requests (trace w) ++ [ReqUpdate id dto; ReqUpdate id dto] /\
  find (fun t => Todo.id t =? id)%Z (Store.todos (store (snd out))) = Some r2 /\
  Todo.status r2 <> Todo.status todo.
Proof.
  intros Hf dto U1 U2 Hid Hst out. subst out.
  unfold fromRender, bind.
  rewrite (toggleTodo_resolved_at env _ w id todo r1 b1 Hf U1).
  set (w1 := {| store := _ |}).
  rewrite (toggleTodo_resolved_at env _ w1 id todo r2 b2 Hf U2).
  cbn [snd store trace Store.todos]. unfold w1. cbn [trace].
  repeat rewrite requests_app. cbn. rewrite ?app_nil_r, <- ?app_assoc.
  split; [reflexivity|]. split.
  - now apply find_replaced with (todo := todo).
  - rewrite Hst. destruct (Todo.status todo); discriminate.
Qed.

Lemma same_render_double_toggle_witness :
  let w := worldOf [mkTodo 5 "report" COMPLETED] in
  find (fun t => Todo.id t =? 5)%Z
    (Store.todos
       (store (snd (fromRender
                      (fun todos => toggleTodo echoEnv todos 5 ;;
                                    toggleTodo echoEnv todos 5) w))))
  = Some (mkTodo 5 "report" PENDING).
Proof.
  intro w.
  exact (proj1 (proj2 (same_render_double_toggle echoEnv w 5
                         (mkTodo 5 "report" COMPLETED)
                         (mkTodo 5 "report" PENDING) (mkTodo 5 "report" PENDING)
                         tt tt eq_refl eq_refl eq_refl eq_refl eq_refl))).
Defined.

(** ** Adding a task and deleting it *)

Lemma filter_other_id_fresh (id : Z) (l : list Todo.t) :
  ~ In id (map Todo.id l) ->
  List.filter (fun todo => negb (Todo.id todo =? id)%Z) l = l.
Proof.
  induction l as [|t l IH]; cbn; intro H; [reflexivity|].
  destruct (Z.eqb_spec (Todo.id t) id) as [E|E]; cbn.
  - exfalso. apply H. now left.
  - f_equal. apply IH. tauto.
Qed.

Lemma perform_addTodo {B} (env : Environment B) (w : World B)
    (todoData : CreateTodoDto.t) :
  snd (perform env (CallAddTodo todoData) w) =
  snd (fromRender (fun todos => addTodo env todos todoData) w).
Proof.
  cbn [perform]. unfold bind, ret.
  destruct (fromRender _ w) as [[a|e] w']; reflexivity.
Qed.

(** X15: a task that was added and is then deleted by its id, both calls
    succeeding, leaves the list exactly as it was before the two calls, when
    the id the backend gave was not in the list. *)
Theorem add_then_delete_restores {B} (env : Environment B) (w : World B)
    (title description : jsstring) (t : Todo.t) (u : unit) (b1 b2 b3 : B) :
  trim title <> [] -> trim description <> [] ->
  onCreate env (CreateTodoDto.mk (trim title) (trim description)) (backend w)
    = (Ok t, b1) ->
  ~ In (Todo.id t) (map Todo.id (Store.todos (store w))) ->
  onConfirm env msgConfirmOne b1 = (true, b2) ->
  onDelete env (Todo.id t) b2 = (Ok u, b3) ->
  let cs := [CallAddTodo (CreateTodoDto.mk title description);
             CallDeleteTodoById (Todo.id t)] in
  Store.todos (store (snd (performAll env cs w))) = Store.todos (store w) /\
  requests (trace (snd (performAll env cs w))) =
    requests (trace w) ++
    [ReqCreate (CreateTodoDto.mk (trim title) (trim description));
     ReqDelete (Todo.id t)].
Proof.
  intros Ht Hd Hc Hfresh Hconf Hdel cs. subst cs.
  rewrite !performAll_cons. cbn [performAll]. unfold ret. cbn [snd].
  rewrite perform_addTodo, (addTodo_resolved env w _ _ _ _ Ht Hd Hc).
  cbn [snd perform].
  set (w1 := {| store := _ |}).
  rewrite (deleteTodoById_resolved env w1 (Todo.id t) b2 u b3 Hconf Hdel).
  cbn [snd store trace Store.todos]. unfold w1. cbn [store trace Store.todos].
  split.
  - rewrite filter_app, filter_other_id_fresh by exact Hfresh.
    cbn. rewrite Z.eqb_refl. cbn. apply app_nil_r.
  - repeat rewrite requests_app. cbn. rewrite ?app_nil_r, <- ?app_assoc.
    reflexivity.
Qed.

Lemma add_then_delete_restores_witness :
  let w := worldOf [mkTodo 4 "milk" PENDING] in
  let cs := [CallAddTodo (CreateTodoDto.mk (lit "tea ") (lit "green"));
             CallDeleteTodoById 1] in
  Store.todos (store (snd (performAll echoEnv cs w))) = [mkTodo 4 "milk" PENDING].
Proof.
  intros w cs.
  assert (Ht : trim (lit "tea ") <> []) by discriminate.
  assert (Hd : trim (lit "green") <> []) by discriminate.
  assert (Hf : ~ In 1%Z (map Todo.id (Store.todos (store w)))).
  { cbn. intros [H|[]]. discriminate H. }
  exact (proj1 (add_then_delete_restores echoEnv w (lit "tea ") (lit "green")
                  (Todo.mk 1 (lit "tea") (lit "green") PENDING None None)
                  tt tt tt tt Ht Hd eq_refl Hf eq_refl eq_refl)).
Defined.

(* ================================================================== *)
(** * Properties of the components, the gate and the utilities *)
(* ================================================================== *)

(** ** [AddTodoForm] with the hook's [addTodo] *)

(** X16: when the submit button of the form is enabled, [handleSubmit] with
    the hook's [addTodo] always sends one creation request with the trimmed
    fields (the validation of [addTodo] cannot fail); the form is emptied
    and hidden when the creation succeeds, and keeps what was typed when it
    is rejected. *)
Theorem submit_enabled_creates {B} (env : Environment B) (w : World B)
    (st : AddTodoForm.State) :
  AddTodoForm.submitDisabled (Store.loading (store w)) st = false ->
  let onAdd := fun dto => fromRender (fun todos => addTodo env todos dto) in
  let out := AddTodoForm.handleSubmit onAdd st w in
  let dto := CreateTodoDto.mk (trim (AddTodoForm.title st))
               (trim (AddTodoForm.description st)) in
  requests (trace (snd out)) = requests (trace w) ++ [ReqCreate dto] /\
  (forall t b',
      onCreate env dto (backend w) = (Ok t, b') ->
      fst out = Ok (AddTodoForm.mk false [] []) /\
      Store.todos (store (snd out)) = Store.todos (store w) ++ [t]) /\
  (forall e b',
      onCreate env dto (backend w) = (Rejected e, b') ->
      fst out = Ok st /\
      Store.todos (store (snd out)) = Store.todos (store w)).
Proof.
  intros Hen onAdd out dto. subst onAdd out.
  unfold AddTodoForm.submitDisabled in Hen.
  apply orb_false_iff in Hen. destruct Hen as [Hen Hd].
  apply orb_false_iff in Hen. destruct Hen as [_ Ht].
  apply isEmpty_false_iff in Ht, Hd.
  unfold AddTodoForm.handleSubmit, bind.
  destruct (onCreate env dto (backend w)) as [[t0|e0] b0] eqn:E.
  - rewrite (addTodo_resolved env w _ _ _ _ Ht Hd E). cbn.
    rewrite requests_app. cbn. split; [reflexivity|]. split.
    + intros t b' H. injection H as <- _. split; reflexivity.
    + intros e b' H. discriminate H.
  - rewrite (addTodo_rejected env w _ _ _ _ Ht Hd E). cbn.
    rewrite requests_app. cbn. split; [reflexivity|]. split.
    + intros t b' H. discriminate H.
    + intros e b' H. split; reflexivity.
Qed.

Lemma submit_enabled_creates_witness :
  let st := AddTodoForm.mk true (lit " tea") (lit "green") in
  let onAdd env := fun dto => fromRender (fun todos => addTodo env todos dto) in
  fst (AddTodoForm.handleSubmit (onAdd echoEnv) st (worldOf []))
    = Ok (AddTodoForm.mk false [] []) /\
  fst (AddTodoForm.handleSubmit (onAdd failingEnv) st (worldOf [])) = Ok st.
Proof.
  intros st onAdd.
  destruct (submit_enabled_creates echoEnv (worldOf []) st eq_refl)
    as (_ & H1 & _).
  destruct (submit_enabled_creates failingEnv (worldOf []) st eq_refl)
    as (_ & _ & H2).
  split.
  - exact (proj1 (H1 (Todo.mk 1 (lit "tea") (lit "green") PENDING None None)
                     tt eq_refl)).
  - exact (proj1 (H2 http500 tt eq_refl)).
Defined.

(** X17: the submit button is disabled for blank fields exactly when
    [addTodo] would refuse them: with [loading] off, the button is disabled
    if and only if [addTodo] on the fields of the form returns [false]
    without sending anything. *)
Theorem submit_disabled_iff_refused {B} (env : Environment B) (w : World B)
    (st : AddTodoForm.State) :
  let out :=
    fromRender
      (fun todos => addTodo env todos
                      (CreateTodoDto.mk (AddTodoForm.title st)
                                        (AddTodoForm.description st))) w in
  AddTodoForm.submitDisabled false st = true <->
  fst out = Ok false /\ requests (trace (snd out)) = requests (trace w).
Proof.
  intro out. subst out. unfold AddTodoForm.submitDisabled. cbn [orb].
  destruct (isEmpty (trim (AddTodoForm.title st))) eqn:Et.
  - apply isEmpty_true_iff in Et.
    rewrite (addTodo_blank env w _ _ (or_introl Et)). cbn.
    rewrite requests_app. cbn. rewrite app_nil_r. tauto.
  - destruct (isEmpty (trim (AddTodoForm.description st))) eqn:Ed.
    + apply isEmpty_true_iff in Ed.
      rewrite (addTodo_blank env w _ _ (or_intror Ed)). cbn.
      rewrite requests_app. cbn. rewrite app_nil_r. tauto.
    + apply isEmpty_false_iff in Et, Ed. cbn [orb].
      split; [discriminate|]. intros [Hf Hr]. exfalso.
      destruct (onCreate env
                  (CreateTodoDto.mk (trim (AddTodoForm.title st))
                     (trim (AddTodoForm.description st))) (backend w))
        as [[t|e] b1] eqn:E.
      * rewrite (addTodo_resolved env w _ _ _ _ Et Ed E) in Hf. discriminate Hf.
      * rewrite (addTodo_rejected env w _ _ _ _ Et Ed E) in Hr. cbn in Hr.
        rewrite requests_app in Hr. cbn in Hr.
        apply (f_equal (@List.length Request)) in Hr.
        rewrite length_app in Hr. cbn in Hr. lia.
Qed.

(** ** [TodoItem] *)

(** X18: the status buttons of an item never offer the status the task has
    and never offer a status twice; a COMPLETED or CANCELLED task only
    offers PENDING, and a PENDING or IN_PROGRESS task offers each of the
    three other statuses. *)
Theorem statusButtons_spec (todo : Todo.t) :
  ~ In (Todo.status todo) (TodoItem.statusButtons todo) /\
  NoDup (TodoItem.statusButtons todo) /\
  (Todo.status todo = COMPLETED \/ Todo.status todo = CANCELLED ->
   TodoItem.statusButtons todo = [PENDING]) /\
  (Todo.status todo = PENDING \/ Todo.status todo = IN_PROGRESS ->
   forall s, s <> Todo.status todo -> In s (TodoItem.statusButtons todo)).
Proof.
  unfold TodoItem.statusButtons.
  destruct (Todo.status todo) eqn:Es; cbn; (split; [|split; [|split]]).
  all: try (intros [H|H]; try discriminate H).
  all: try (repeat constructor; cbn; intuition discriminate).
  all: try reflexivity.
  all: try (intros ? ?; discriminate).
  all: try (intro H; intuition discriminate).
  all: intros [| | |] Hs; cbn; tauto.
Qed.

(** X19: the tooltip of the toggle button announces what [toggleTodo] asks
    the backend: it reads 'Marcar como pendiente' exactly when the status
    sent is PENDING, and 'Marcar como completada' exactly when it is
    COMPLETED. *)
Theorem toggleTitle_announces_toggle (todo : Todo.t) :
  (TodoItem.toggleTitle todo = lit "Marcar como pendiente" <->
   toggledStatus (Todo.status todo) = PENDING) /\
  (TodoItem.toggleTitle todo = lit "Marcar como completada" <->
   toggledStatus (Todo.status todo) = COMPLETED).
Proof.
  unfold TodoItem.toggleTitle.
  destruct (Todo.status todo); cbn [status_eqb toggledStatus];
    split; split; intro H; try reflexivity; try discriminate H.
Qed.

(** ** The gate, the handshake and the refresh *)

(** X20: once [keycloak.init] has settled on a mounted provider, the
    provider is initialized, and it shows its children if and only if the
    handshake resolved with [true]; a handshake that resolved with [false]
    or was rejected shows the unauthenticated message.  On an unmounted
    provider the state is left as it was. *)
Theorem gate_after_init {U C : Type} (tokenParsed : option U)
    (o : Auth.InitOutcome) (st0 : Auth.State) (children : C) :
  let st := Auth.afterInit true o st0 in
  Auth.initialized st = true /\
  (Auth.shownChildren (Auth.AuthProvider tokenParsed st children)
     = Some children <->
   exists keycloakToken, o = Auth.InitResolved true keycloakToken) /\
  ((forall keycloakToken, o <> Auth.InitResolved true keycloakToken) ->
   Auth.AuthProvider tokenParsed st children =
     Auth.BlockingMessage Auth.msgUnauthenticated) /\
  Auth.afterInit false o st0 = st0.
Proof.
  intro st. subst st.
  destruct o as [[|] tok|]; cbn; (split; [reflexivity|]);
    (split; [split|split; [|reflexivity]]).
  all: try (intros; eexists; reflexivity).
  all: try (intro H; discriminate H).
  all: try (intros [tok' H]; discriminate H).
  all: try reflexivity.
  intro H. exfalso. now apply (H tok).
Qed.

Lemma gate_after_init_witness :
  Auth.AuthProvider (@None unit)
    (Auth.afterInit true (Auth.InitResolved false None) Auth.initialState)
    7%nat
  = Auth.BlockingMessage Auth.msgUnauthenticated.
Proof.
  destruct (gate_after_init (@None unit) (Auth.InitResolved false None)
              Auth.initialState 7%nat) as (_ & _ & H & _).
  apply H. intros tok E. discriminate E.
Defined.

(** X21: a tick of the token refresh never opens nor closes the gate: what
    the provider shows of its children is the same before and after.  The
    only thing it can change is the token, and only when the identity client
    reports a refreshed token; it calls [login] exactly when the refresh was
    rejected. *)
Theorem refresh_keeps_gate {U C : Type} (tokenParsed : option U)
    (o : AuthHook.RefreshOutcome) (st : Auth.State) (children : C) :
  let st' := fst (AuthHook.refresh o st) in
  let calls := snd (AuthHook.refresh o st) in
  Auth.shownChildren (Auth.AuthProvider tokenParsed st' children) =
    Auth.shownChildren (Auth.AuthProvider tokenParsed st children) /\
  Auth.initialized st' = Auth.initialized st /\
  Auth.authenticated st' = Auth.authenticated st /\
  (Auth.token st' <> Auth.token st ->
   exists keycloakToken, o = AuthHook.RefreshResolved true keycloakToken /\
                         Auth.token st' = keycloakToken) /\
  (calls = [Auth.KcLogin] <-> o = AuthHook.RefreshRejected) /\
  (o <> AuthHook.RefreshRejected -> calls = []).
Proof.
  intros st' calls. subst st' calls.
  destruct o as [[|] tok|]; cbn.
  - unfold Auth.AuthProvider. cbn.
    repeat split; try reflexivity; try discriminate.
    + destruct (Auth.initialized st), (Auth.authenticated st); reflexivity.
    + intros _. now exists tok.
  - repeat split; try reflexivity; try discriminate; intro H; congruence.
  - repeat split; try reflexivity; try discriminate; intro H; congruence.
Qed.

Lemma refresh_keeps_gate_witness :
  let st := Auth.afterInit true (Auth.InitResolved true (Some (lit "old")))
              Auth.initialState in
  snd (AuthHook.refresh (AuthHook.RefreshResolved false (Some (lit "old"))) st)
  = [].
Proof.
  intro st.
  destruct (refresh_keeps_gate (@None unit)
              (AuthHook.RefreshResolved false (Some (lit "old"))) st 7%nat)
    as (_ & _ & _ & _ & _ & H).
  apply H. discriminate.
Defined.

(** X22: below the children the provider shows, [useAuth] does not throw and
    returns a context that is initialized and authenticated, with the token
    of the provider's state and the parsed token as user; where the provider
    shows a blocking message, and outside any provider, there is no context
    and [useAuth] throws its error. *)
Theorem useAuth_under_provider {U C : Type} (tokenParsed : option U)
    (st : Auth.State) (children : C) :
  let view := Auth.AuthProvider tokenParsed st children in
  (Auth.shownChildren view = Some children ->
   exists ctx,
     AuthHook.useAuth (AuthHook.useContext view) = Ok ctx /\
     Auth.ctx_initialized ctx = true /\
     Auth.ctx_authenticated ctx = true /\
     Auth.ctx_token ctx = Auth.token st /\
     Auth.ctx_user ctx = tokenParsed) /\
  (Auth.shownChildren view = None ->
   AuthHook.useAuth (AuthHook.useContext view) =
     Rejected (ErrorInstance AuthHook.msgOutsideProvider)).
Proof.
  intro view. subst view. unfold Auth.AuthProvider.
  destruct (Auth.initialized st) eqn:Ei, (Auth.authenticated st) eqn:Ea; cbn;
    split; intro H; try discriminate H; try reflexivity.
  eexists. split; [reflexivity|]. cbn. auto.
Qed.

Lemma useAuth_under_provider_witness :
  let st := Auth.afterInit true (Auth.InitResolved true (Some (lit "jwt")))
              Auth.initialState in
  exists ctx,
    AuthHook.useAuth
      (AuthHook.useContext (Auth.AuthProvider (@None unit) st 7%nat)) = Ok ctx /\
    Auth.ctx_authenticated ctx = true.
Proof.
  intro st.
  destruct (proj1 (useAuth_under_provider (@None unit) st 7%nat) eq_refl)
    as (ctx & H1 & _ & H2 & _).
  exists ctx. split; assumption.
Defined.

(** ** [truncateText] *)

Lemma length_lit3 : List.length (lit "...") = 3%nat.
Proof. reflexivity. Qed.

(** X23: [truncateText(text, maxLength)], for an integer [maxLength],
    returns the text itself when it has at most [maxLength] code units;
    otherwise it returns the first [maxLength] code units (none when
    [maxLength] is negative) followed by three dots, which makes
    [max(0, maxLength) + 3] code units, three more than the limit.
    Truncating a second time with the same limit changes nothing. *)
Theorem truncateText_spec (text : jsstring) (maxLength : Z) :
  ((Z.of_nat (List.length text) <= maxLength)%Z ->
   truncateText text maxLength = text) /\
  ((maxLength < Z.of_nat (List.length text))%Z ->
   truncateText text maxLength =
     firstn (Z.to_nat maxLength) text ++ lit "..." /\
   Z.of_nat (List.length (truncateText text maxLength)) =
     (Z.max 0 maxLength + 3)%Z) /\
  truncateText (truncateText text maxLength) maxLength =
    truncateText text maxLength.
Proof.
  assert (Hfit : (Z.of_nat (List.length text) <= maxLength)%Z ->
                 truncateText text maxLength = text).
  { intro H. unfold truncateText. apply Z.leb_le in H. now rewrite H. }
  assert (Hcut : (maxLength < Z.of_nat (List.length text))%Z ->
                 truncateText text maxLength =
                 firstn (Z.to_nat maxLength) text ++ lit "...").
  { intro H. unfold truncateText, substring0. apply Z.leb_gt in H.
    now rewrite H. }
  assert (Hlen : (maxLength < Z.of_nat (List.length text))%Z ->
                 List.length (firstn (Z.to_nat maxLength) text) =
                 Z.to_nat maxLength).
  { intro H. apply firstn_length_le. lia. }
  split; [exact Hfit|]. split.
  - intro H. split; [now apply Hcut|].
    rewrite (Hcut H), length_app, (Hlen H), length_lit3. lia.
  - destruct (Z.leb_spec (Z.of_nat (List.length text)) maxLength) as [H|H].
    + now rewrite !(Hfit H).
    + rewrite (Hcut H).
      unfold truncateText at 1.
      rewrite length_app, (Hlen H), length_lit3.
      destruct (Z.leb_spec (Z.of_nat (Z.to_nat maxLength + 3)) maxLength)
        as [H'|_]; [lia|].
      unfold substring0. rewrite firstn_app, (Hlen H), Nat.sub_diag.
      cbn [firstn]. rewrite app_nil_r, firstn_firstn, Nat.min_id.
      reflexivity.
Qed.

Lemma truncateText_spec_witness :
  truncateText (lit "abcd") 3 = lit "abc..." /\
  truncateText (lit "abcd") 4 = lit "abcd" /\
  truncateText (lit "abcd") (-2) = lit "...".
Proof.
  destruct (truncateText_spec (lit "abcd") 3) as (_ & H1 & _).
  destruct (truncateText_spec (lit "abcd") 4) as (H2 & _).
  destruct (truncateText_spec (lit "abcd") (-2)) as (_ & H3 & _).
  split; [|split].
  - rewrite (proj1 (H1 eq_refl)). reflexivity.
  - apply H2. apply Z.leb_le. reflexivity.
  - rewrite (proj1 (H3 eq_refl)). reflexivity.
Defined.

(** ** Further examples *)

Lemma update_keeps_tasks_witness :
  let w := worldOf [mkTodo 4 "milk" PENDING; mkTodo 5 "report" COMPLETED] in
  In (mkTodo 4 "milk" PENDING)
     (Store.todos
        (store (snd (fromRender (fun todos => toggleTodo echoEnv todos 5) w)))).
Proof.
  intro w.
  destruct (update_keeps_tasks echoEnv w 5 PENDING) as (_ & _ & H).
  apply (H (mkTodo 4 "milk" PENDING)).
  - left. reflexivity.
  - discriminate.
Defined.

Lemma error_always_has_timer_witness :
  let w := worldOf [mkTodo 4 "milk" PENDING] in
  let ss := [StepCall (CallSearchTodos (lit "milk"));
             StepCall (CallToggleTodo 4); StepTimer 0] in
  Store.error (store (snd (runSteps failingEnv ss w))) = [] \/
  timers (snd (runSteps failingEnv ss w)) <> [].
Proof.
  intros w ss.
  exact (proj1 (proj2 (error_always_has_timer failingEnv ss w
                         (or_introl eq_refl)))).
Defined.

Lemma submit_disabled_iff_refused_witness :
  let st := AddTodoForm.mk true (lit "tea") (lit "  ") in
  fst (fromRender
         (fun todos => addTodo echoEnv todos
                         (CreateTodoDto.mk (AddTodoForm.title st)
                                           (AddTodoForm.description st)))
         (worldOf [])) = Ok false.
Proof.
  intro st.
  exact (proj1 (proj1 (submit_disabled_iff_refused echoEnv (worldOf []) st)
                  eq_refl)).
Defined.

Lemma statusButtons_spec_witness :
  TodoItem.statusButtons (mkTodo 5 "report" CANCELLED) = [PENDING] /\
  In CANCELLED (TodoItem.statusButtons (mkTodo 4 "milk" IN_PROGRESS)).
Proof.
  destruct (statusButtons_spec (mkTodo 5 "report" CANCELLED)) as (_ & _ & H1 & _).
  destruct (statusButtons_spec (mkTodo 4 "milk" IN_PROGRESS)) as (_ & _ & _ & H2).
  split.
  - apply H1. right. reflexivity.
  - apply H2; [right; reflexivity|discriminate].
Defined.

Lemma toggleTitle_announces_toggle_witness :
  TodoItem.toggleTitle (mkTodo 5 "report" COMPLETED)
  = lit "Marcar como pendiente".
Proof.
  apply (proj1 (toggleTitle_announces_toggle (mkTodo 5 "report" COMPLETED))).
  reflexivity.
Defined.
